(** * Custom OCR PDF Loader (Flowise node [customOcr])

    A shallow embedding of [CustomOCR_DocumentLoader]: the response
    normaliser [extractDocsFromCustomApi], the remote call
    [postFilesToCustomApi], the local path [extractDocs] and the entry
    point [init], followed by the properties of the specification that
    were checked against them.

    Modelling conventions.
    - A JavaScript string is a [string]; the code units are the ASCII
      ones, so [toLowerCase] only moves [A]..[Z].
    - A value that came out of [JSON.parse] / [response.json()] is a
      [JsVal].  The code never computes with a number of a response: it
      tests it for truth and converts it to a string.  A number is
      therefore given by the string [Number.prototype.toString] prints
      for it ([1e+21], [0.5], [-3], ...), which determines the number up
      to the sign of zero.  An object is the finite map of its own
      enumerable properties; what it inherits is not part of it.
    - A property read that gives [undefined] is [None].
    - An exception is a value of [Exn]; code that can throw returns a
      [result].
    - Collaborators outside the class (file storage, [fetch], the PDF
      loader, the text splitter, [JSON.parse], base64 decoding, credential
      lookup, [handleEscapeCharacters]) are fields of [Collaborators];
      every call to one of them is recorded in a trace of [Event]s. *)

From Stdlib Require Import Ascii String.
From stdpp Require Import gmap strings list fin_maps pretty.

#[local] Set Warnings "-register-all".
#[local] Open Scope string_scope.
#[local] Open Scope list_scope.

(** ** Exceptions and fallible results *)

Inductive Exn :=
| Error (message : string)
| TypeError (message : string)
| SyntaxError (message : string).

(** [error.message] *)
Definition message (e : Exn) : string :=
  match e with
  | Error m | TypeError m | SyntaxError m => m
  end.

Inductive result (A : Type) :=
| OK (a : A)
| Throw (e : Exn).
Arguments OK {A} a.
Arguments Throw {A} e.

#[global] Instance result_ret : MRet result := fun A a => OK a.
#[global] Instance result_fmap : FMap result := fun A B f m =>
  match m with
  | OK a => OK (f a)
  | Throw e => Throw e
  end.
#[global] Instance result_bind : MBind result := fun A B f m =>
  match m with
  | OK a => f a
  | Throw e => Throw e
  end.

(** ** JSON values *)

Inductive JsVal :=
| JNull
| JBool (b : bool)
| JNum (repr : string)
| JStr (s : string)
| JArr (l : list JsVal)
| JObj (m : gmap string JsVal).

(** An object as the code uses it for [metadata]: its own enumerable
    properties. *)
Abbreviation JsObject := (gmap string JsVal).

(** A number the code itself makes ([index + 1], a count of lines): a
    natural number far below [10^21], which prints as its decimal
    digits. *)
Definition jsNat (n : nat) : JsVal := JNum (pretty n).

(** JavaScript truthiness ([if (v)], [v || w], [!v]).  Of the numbers
    only zero is falsy ([JSON.parse] gives no [NaN]), and both zeros
    print as [0]. *)
Definition truthy (v : JsVal) : bool :=
  match v with
  | JNull => false
  | JBool b => b
  | JNum repr => negb (String.eqb repr "0")
  | JStr s => negb (String.eqb s "")
  | JArr _ | JObj _ => true
  end.

(** Truthiness of the outcome of a property read. *)
Definition truthy_opt (o : option JsVal) : bool :=
  match o with
  | Some v => truthy v
  | None => false
  end.

(** [typeof v === 'object'] (which [null] satisfies). *)
Definition typeof_object (v : JsVal) : bool :=
  match v with
  | JNull | JArr _ | JObj _ => true
  | _ => false
  end.

(** [v.name] for the property names the loader reads ([pageContent],
    [text], [content], [metadata], [lines]): none of them is an index, a
    [length] or a prototype property, so only an object can have one.
    Reading a property of [null] throws. *)
Definition getProp (v : JsVal) (name : string) : result (option JsVal) :=
  match v with
  | JNull => Throw (TypeError ("Cannot read properties of null (reading '" +:+ name +:+ "')"))
  | JObj m => OK (m !! name)
  | _ => OK None
  end.

(** [v?.name] when [v] may itself be [undefined] or [null]. *)
Definition getPropOpt (o : option JsVal) (name : string) : option JsVal :=
  match o with
  | Some (JObj m) => m !! name
  | _ => None
  end.

(** ** Strings *)

(** One code unit in lower case. *)
Definition lowerChar (c : ascii) : ascii :=
  let n := Ascii.nat_of_ascii c in
  if (65 <=? n)%nat && (n <=? 90)%nat then Ascii.ascii_of_nat (n + 32) else c.

(** [s.toLowerCase()] *)
Fixpoint toLowerCase (s : string) : string :=
  match s with
  | EmptyString => EmptyString
  | String c r => String (lowerChar c) (toLowerCase r)
  end.

(** [s.startsWith(searchString)] *)
Definition startsWith (s searchString : string) : bool :=
  String.prefix searchString s.

(** [s.endsWith(searchString)]: some suffix of [s] is [searchString]. *)
Fixpoint endsWith (s searchString : string) : bool :=
  String.eqb s searchString ||
  match s with
  | EmptyString => false
  | String _ r => endsWith r searchString
  end.

(** [s.split(sep)] for a one-character separator: never an empty array. *)
Fixpoint split (sep : ascii) (s : string) : list string :=
  match s with
  | EmptyString => [EmptyString]
  | String c r =>
      if Ascii.eqb c sep then EmptyString :: split sep r
      else match split sep r with
           | seg :: segs => String c seg :: segs
           | [] => [String c EmptyString]
           end
  end.

(** [s.substring(n)] *)
Fixpoint dropChars (n : nat) (s : string) : string :=
  match n, s with
  | S k, String _ r => dropChars k r
  | _, _ => s
  end.

(** [s.replace(pattern, replacement)] with a string pattern: the first
    occurrence only. *)
Fixpoint replace (pattern replacement s : string) : string :=
  if String.prefix pattern s
  then replacement +:+ dropChars (String.length pattern) s
  else match s with
       | EmptyString => EmptyString
       | String c r => String c (replace pattern replacement r)
       end.

(** The line feed, as a character and as the string ['\n']. *)
Definition newline : ascii := Ascii.ascii_of_nat 10.
Definition nl : string := String newline EmptyString.

(** ** Conversion to string *)

(** Own enumerable properties, as [Object.assign] and object spread see
    them: the fields of an object, the elements of an array and the
    characters of a string under their decimal indices, nothing for a
    number, a boolean or [null]. *)
Definition indexed {A} (f : A → JsVal) (l : list A) : JsObject :=
  list_to_map (imap (fun i x => (pretty i, f x)) l).

Definition ownProps (v : JsVal) : JsObject :=
  match v with
  | JObj m => m
  | JArr l => indexed id l
  | JStr s => indexed (fun c => JStr (String c EmptyString)) (list_ascii_of_string s)
  | _ => ∅
  end.

(** [ToString], the conversion of template literals and of
    [Array.prototype.join].  A parsed object prints as [[object Object]]
    unless it has a property [toString] of its own, which is then not
    callable; an array prints as its elements joined by commas. *)
Fixpoint ToString (v : JsVal) : result string :=
  match v with
  | JNull => OK "null"
  | JBool b => OK (if b then "true" else "false")
  | JNum repr => OK repr
  | JStr s => OK s
  | JArr l =>
      let fix elements (l : list JsVal) : result (list string) :=
        match l with
        | [] => OK []
        | e :: r =>
            s ← match e with JNull => OK "" | _ => ToString e end;
            ss ← elements r;
            OK (s :: ss)
        end in
      ss ← elements l; OK (String.concat "," ss)
  | JObj m =>
      match m !! "toString" with
      | Some _ => Throw (TypeError "Cannot convert object to primitive value")
      | None => OK "[object Object]"
      end
  end.

(** [array.join(sep)]: [null] elements print as the empty string. *)
Fixpoint joinElements (l : list JsVal) : result (list string) :=
  match l with
  | [] => OK []
  | e :: r =>
      s ← match e with JNull => OK "" | _ => ToString e end;
      ss ← joinElements r;
      OK (s :: ss)
  end.

Definition Array_join (l : list JsVal) (sep : string) : result string :=
  ss ← joinElements l; OK (String.concat sep ss).

(** ** Documents *)

(** [content.toString()], the method call: it agrees with [ToString]
    except on [null], which has no properties, and on the message for an
    object whose own [toString] is not callable. *)
Definition toStringMethod (content : JsVal) : result string :=
  match content with
  | JNull => Throw (TypeError "Cannot read properties of null (reading 'toString')")
  | JObj m =>
      match m !! "toString" with
      | Some _ => Throw (TypeError "fields.pageContent.toString is not a function")
      | None => OK "[object Object]"
      end
  | _ => ToString content
  end.

(** [Document] of [@langchain/core]: the constructor stores
    [pageContent.toString()] and the metadata object. *)
Record Document := mkDocument {
  pageContent : string;
  metadata : JsObject
}.

Definition newDocument (content : JsVal) (md : JsObject) : result Document :=
  s ← toStringMethod content; OK (mkDocument s md).

(** ** [extractDocsFromCustomApi] *)

(** [o || other], for the outcome [o] of a property read. *)
Definition orElse (o : option JsVal) (other : JsVal) : JsVal :=
  match o with
  | Some v => if truthy v then v else other
  | None => other
  end.

(** [typeof item === 'string' ? item
       : item.pageContent || item.text || item.content || '']
    (lines 299 and 318). *)
Definition entryText (item : JsVal) : result JsVal :=
  match item with
  | JStr _ => OK item
  | _ =>
      pc ← getProp item "pageContent";
      if truthy_opt pc then OK (default JNull pc) else
      tx ← getProp item "text";
      if truthy_opt tx then OK (default JNull tx) else
      ct ← getProp item "content";
      OK (orElse ct (JStr ""))
  end.

(** [{ source: filename, custom_ocr: true }] *)
Definition baseMetadata (filename : string) : JsObject :=
  {[ "source" := JStr filename; "custom_ocr" := JBool true ]}.

(** [Object.assign(metadata, source)]: every own enumerable property of
    the source is assigned to the target, so the source's properties win.
    The assignment of a property named [__proto__] reaches the setter the
    target inherits from [Object.prototype]: it changes what the target
    inherits and adds no property. *)
Definition Object_assign (target : JsObject) (source : JsVal) : JsObject :=
  delete "__proto__" (ownProps source) ∪ target.

(** [filename.toLowerCase().endsWith('.pdf')] *)
Definition isPdf (filename : string) : bool :=
  endsWith (toLowerCase filename) ".pdf".

(** [pageContent.split('\n').length] *)
Definition lineCount (s : string) : nat := length (split newline s).

(** The three-way choice of [metadata.loc.lines] (lines 336-349):
    [None] when no branch assigns it. *)
Definition locLines (item pageContent : JsVal) : result (option JsVal) :=
  if typeof_object item then
    ln ← getProp item "lines";
    if truthy_opt ln then OK ln else
    md ← getProp item "metadata";
    let mdLines := getPropOpt md "lines" in
    if truthy_opt mdLines then OK mdLines else
    if truthy pageContent then
      match pageContent with
      | JStr s => OK (Some (JObj {[ "from" := jsNat 1; "to" := jsNat (lineCount s) ]}))
      | _ => Throw (TypeError "pageContent.split is not a function")
      end
    else OK None
  else
    if truthy pageContent then
      match pageContent with
      | JStr s => OK (Some (JObj {[ "from" := jsNat 1; "to" := jsNat (lineCount s) ]}))
      | _ => Throw (TypeError "pageContent.split is not a function")
      end
    else OK None.

(** [metadata.loc = { pageNumber: index + 1 }], then the optional
    [metadata.loc.lines = ...]. *)
Definition locObject (index : nat) (lines : option JsVal) : JsObject :=
  match lines with
  | Some ln => <[ "lines" := ln ]> {[ "pageNumber" := jsNat (index + 1) ]}
  | None => {[ "pageNumber" := jsNat (index + 1) ]}
  end.

(** [if (typeof item === 'object' && item.metadata)
       Object.assign(metadata, item.metadata)] *)
Definition mergeEntryMetadata (md : JsObject) (item : JsVal) : result JsObject :=
  if typeof_object item then
    im ← getProp item "metadata";
    if truthy_opt im then OK (Object_assign md (default JNull im)) else OK md
  else OK md.

(** The body of the [forEach] callback of the per-page branch. *)
Definition pageDocument (filename : string) (index : nat) (item : JsVal) : result Document :=
  content ← entryText item;
  md ← mergeEntryMetadata (baseMetadata filename) item;
  if isPdf filename then
    lines ← locLines item content;
    newDocument content (<[ "loc" := JObj (locObject index lines) ]> md)
  else newDocument content md.

(** [result.forEach((item, index) => ... documents.push(...))], from
    position [index] on. *)
Fixpoint perPageDocuments (filename : string) (index : nat) (items : list JsVal)
  : result (list Document) :=
  match items with
  | [] => OK []
  | item :: rest =>
      d ← pageDocument filename index item;
      ds ← perPageDocuments filename (S index) rest;
      OK (d :: ds)
  end.

(** The callback of [result.map] in the per-file branch. *)
Definition filePart (index : nat) (item : JsVal) : result JsVal :=
  content ← entryText item;
  match index with
  | O => OK content
  | _ =>
      s ← ToString content;
      OK (JStr ("<PAGE_BREAK>" +:+ pretty (index + 1)%nat +:+ "</PAGE_BREAK>" +:+ nl +:+ nl +:+ s))
  end.

Fixpoint fileParts (index : nat) (items : list JsVal) : result (list JsVal) :=
  match items with
  | [] => OK []
  | item :: rest =>
      p ← filePart index item;
      ps ← fileParts (S index) rest;
      OK (p :: ps)
  end.

(** [typeof result[0] === 'object' && result[0]?.metadata] *)
Definition firstEntryMetadata (items : list JsVal) : option JsVal :=
  match items with
  | JObj m :: _ => m !! "metadata"
  | _ => None
  end.

Definition perFileDocument (filename : string) (items : list JsVal) : result Document :=
  parts ← fileParts 0 items;
  content ← Array_join parts (nl +:+ nl);
  let md := baseMetadata filename in
  let fm := firstEntryMetadata items in
  let md := if truthy_opt fm then Object_assign md (default JNull fm) else md in
  newDocument (JStr content) md.

(** [this.usage === 'perFile'] *)
Definition isPerFile (usage : option string) : bool :=
  match usage with
  | Some u => String.eqb u "perFile"
  | None => false
  end.

Definition extractDocsFromCustomApi (usage : option string) (items : list JsVal)
  (filename : string) : result (list Document) :=
  if isPerFile usage then
    d ← perFileDocument filename items; OK [d]
  else perPageDocuments filename 0 items.

(** ** Collaborators and the trace of their calls *)

(** A [Buffer]. *)
Abbreviation Buffer := (list Byte.byte).

(** What [postFilesToCustomApi] hands to [fetch]. *)
Record Request := mkRequest {
  req_url : string;
  req_method : string;
  req_Authorization : string;
  req_XFilename : string;
  req_field : string;
  req_body : Buffer;
  req_filename : string;
  req_contentType : string
}.

(** What [fetch] resolves to: [response.ok], [response.status], and the
    outcomes of [response.text()] and [response.json()]. *)
Record Response := mkResponse {
  ok : bool;
  status : Z;
  text : result string;
  json : result JsVal
}.

Inductive Event :=
| StorageRead (file : string)
| OcrPost (req : Request)
| PdfLoad (splitPages legacyBuild : bool) (bf : Buffer)
| SplitDocuments (docs : list Document).

(** Calls made so far, oldest first. *)
Abbreviation Trace := (list Event).

(** [textSplitter.splitDocuments] *)
Record TextSplitter := mkTextSplitter {
  splitDocuments : Trace → list Document → result (list Document)
}.

(** Everything [init] obtains from outside the class.  A collaborator
    that performs I/O also sees the calls made before it. *)
Record Collaborators := mkCollaborators {
  (** [getCredentialParam('customOcrApiKey', await getCredentialData(..), nodeData)] *)
  credentialApiKey : option string;
  (** [getFileFromStorage(file, orgId, chatflowid)], as a [Buffer] *)
  getFileFromStorage : Trace → string → result Buffer;
  (** [fetch] of [node-fetch] *)
  fetch : Trace → Request → result Response;
  (** [new PDFLoader(blob, { splitPages, pdfjs }).load()] *)
  PDFLoader_load : Trace → bool → bool → Buffer → result (list Document);
  (** [JSON.parse] of a bracketed upload value, typed [string[]] *)
  JSON_parse_files : string → result (list string);
  (** [JSON.parse] *)
  JSON_parse : string → result JsVal;
  (** [Buffer.from(s, 'base64')] *)
  Buffer_from_base64 : string → Buffer;
  (** [Buffer.from(s, 'utf-8').toString('base64')] *)
  base64_of_utf8 : string → string;
  (** [handleEscapeCharacters(s, false)] *)
  handleEscapeCharacters : string → string
}.

(** ** The monad of [init]: a result and the extended trace *)

Definition M (A : Type) : Type := Trace → result A * Trace.

Definition ret {A} (a : A) : M A := fun t => (OK a, t).
Definition throw {A} (e : Exn) : M A := fun t => (Throw e, t).
Definition lift {A} (r : result A) : M A := fun t => (r, t).
Definition bind {A B} (m : M A) (k : A → M B) : M B := fun t =>
  match m t with
  | (OK a, t') => k a t'
  | (Throw e, t') => (Throw e, t')
  end.
(** [await collaborator(..)]: the call is recorded whether it succeeds or not. *)
Definition call {A} (ev : Event) (f : Trace → result A) : M A := fun t =>
  (f t, t ++ [ev]).
(** [try { m } catch (error) { h error }] *)
Definition tryCatch {A} (m : M A) (h : Exn → M A) : M A := fun t =>
  match m t with
  | (OK a, t') => (OK a, t')
  | (Throw e, t') => h e t'
  end.

Declare Scope M_scope.
Delimit Scope M_scope with M.
Notation "x <- m ;; k" := (bind m (fun x => k))
  (at level 100, m at next level, right associativity) : M_scope.

(** ** The node's input *)

Module NodeData.
(** [nodeData.inputs], [nodeData.outputs?.output]; an absent field is
    [None]. *)
Record t := mk {
  processFile : option string;
  txtFile : option string;
  yamlFile : option string;
  docxFile : option string;
  jsonlinesFile : option string;
  csvFile : option string;
  jsonFile : option string;
  fileObject : option string;
  customOcrApiUrl : option string;
  textSplitter : option TextSplitter;
  usage : option string;
  metadata : option JsVal;
  legacyBuild : bool;
  output : option string
}.
End NodeData.

(** A string operand of [||] / [&&] / [if]: truthy when present and not
    empty. *)
Definition nonEmpty (o : option string) : bool :=
  match o with
  | Some s => negb (String.eqb s "")
  | None => false
  end.

(** [a || b] on optional strings. *)
Definition orStr (a b : option string) : option string :=
  if nonEmpty a then a else b.

(** ** [postFilesToCustomApi] *)

Section Loader.
Context (env : Collaborators).
(** The instance fields set at the top of [init]. *)
Context (customOcrApiUrl customOcrApiKey : option string).
Context (textSplitter : option TextSplitter).
Context (usage : option string).

#[local] Open Scope M_scope.

Definition ocrRequest (buffer : Buffer) (filename : string) : Request :=
  {| req_url := default "" customOcrApiUrl;
     req_method := "POST";
     req_Authorization := "Bearer " +:+ default "undefined" customOcrApiKey;
     req_XFilename := base64_of_utf8 env filename;
     req_field := "files";
     req_body := buffer;
     req_filename := filename;
     req_contentType := "application/pdf" |}.

Definition postFilesToCustomApi (buffer : Buffer) (filename : string) : M (list Document) :=
  tryCatch
    (let req := ocrRequest buffer filename in
     response <- call (OcrPost req) (fun t => fetch env t req) ;;
     if negb (ok response) then
       errorText <- lift (text response) ;;
       throw (Error ("Custom OCR API request failed with status "
                     +:+ pretty (status response) +:+ ": " +:+ errorText))
     else
       result <- lift (json response) ;;
       match result with
       | JArr pages => lift (extractDocsFromCustomApi usage pages filename)
       | _ => throw (Error "Invalid response format from Custom OCR API: expected array of pages")
       end)
    (fun error =>
       throw (Error ("Failed to process file with Custom OCR API: " +:+ message error))).

(** ** [extractDocs] *)

Definition extractDocs (usage : option string) (bf : Buffer) (legacyBuild : bool)
  (textSplitter : option TextSplitter) (docs : list Document) : M (list Document) :=
  if isPerFile usage then
    loaded <- call (PdfLoad false legacyBuild bf)
                   (fun t => PDFLoader_load env t false legacyBuild bf) ;;
    match textSplitter with
    | Some sp =>
        splittedDocs <- call (SplitDocuments loaded) (fun t => splitDocuments sp t loaded) ;;
        ret (docs ++ splittedDocs)
    | None => ret (docs ++ loaded)
    end
  else
    loaded <- call (PdfLoad true legacyBuild bf)
                   (fun t => PDFLoader_load env t true legacyBuild bf) ;;
    match textSplitter with
    | Some sp =>
        splittedDocs <- call (SplitDocuments loaded) (fun t => splitDocuments sp t loaded) ;;
        ret (docs ++ splittedDocs)
    | None => ret (docs ++ loaded)
    end.

(** ** [init] *)

(** [this.customOcrApiUrl && this.customOcrApiKey] *)
Definition useCustomApi : bool := nonEmpty customOcrApiUrl && nonEmpty customOcrApiKey.

(** The body shared by both loops once [bf] and the file name are
    known (lines 152-163 and 179-190). *)
Definition processBuffer (legacyBuild : bool) (bf : Buffer) (filename : string)
  (docs : list Document) : M (list Document) :=
  if useCustomApi then
    customDocs <- postFilesToCustomApi bf filename ;;
    match textSplitter with
    | Some sp =>
        splittedDocs <- call (SplitDocuments customDocs)
                             (fun t => splitDocuments sp t customDocs) ;;
        ret (docs ++ splittedDocs)
    | None => ret (docs ++ customDocs)
    end
  else extractDocs usage bf legacyBuild textSplitter docs.

(** One iteration of the loop over storage keys (lines 147-163). *)
Definition storageStep (legacyBuild : bool) (file : string) (docs : list Document)
  : M (list Document) :=
  if String.eqb file "" then ret docs else
  bf <- call (StorageRead file) (fun t => getFileFromStorage env t file) ;;
  processBuffer legacyBuild bf file docs.

(** [splitDataURI.pop()?.split(':')[1] ?? ''] on the reversed segments. *)
Definition dataUriFilename (reversedSegments : list string) : string :=
  match reversedSegments with
  | last :: _ => default "" (split ":" last !! 1%nat)
  | [] => ""
  end.

(** The second [splitDataURI.pop() || '']. *)
Definition dataUriPayload (reversedSegments : list string) : string :=
  match reversedSegments with
  | _ :: payload :: _ => payload
  | _ => ""
  end.

(** One iteration of the loop over inline data URIs (lines 173-190). *)
Definition inlineStep (legacyBuild : bool) (file : string) (docs : list Document)
  : M (list Document) :=
  if String.eqb file "" then ret docs else
  let splitDataURI := reverse (split "," file) in
  let filename := dataUriFilename splitDataURI in
  let bf := Buffer_from_base64 env (dataUriPayload splitDataURI) in
  processBuffer legacyBuild bf filename docs.

(** [for (const file of files) { step }] *)
Fixpoint forEachFile (step : string → list Document → M (list Document))
  (files : list string) (docs : list Document) : M (list Document) :=
  match files with
  | [] => ret docs
  | file :: rest => docs' <- step file docs ;; forEachFile step rest docs'
  end.

(** [s.startsWith('[') && s.endsWith(']') ? JSON.parse(s) : [s]] *)
Definition fileList (s : string) : result (list string) :=
  if startsWith s "[" && endsWith s "]" then JSON_parse_files env s else OK [s].

(** Lines 197-206. *)
Definition applyMetadata (additionalMetadata : option JsVal) (docs : list Document)
  : result (list Document) :=
  if truthy_opt additionalMetadata then
    let md := default JNull additionalMetadata in
    parsedMetadata ←
      (if typeof_object md then OK md
       else (s ← ToString md; JSON_parse env s));
    OK (map (fun doc => mkDocument (pageContent doc)
                          (ownProps parsedMetadata ∪ metadata doc)) docs)
  else OK docs.
End Loader.

(** What [init] resolves to: the documents, or their text. *)
Inductive Output :=
| Documents (docs : list Document)
| Text (finaltext : string).

(** [for (const doc of docs) finaltext += `${doc.pageContent}\n`] *)
Definition finalText (docs : list Document) : string :=
  fold_left (fun finaltext doc => finaltext +:+ pageContent doc +:+ nl) docs "".

(** [processFile || txtFile || yamlFile || docxFile || jsonlinesFile ||
     csvFile || jsonFile || fileObject] *)
Definition fileBase64 (nodeData : NodeData.t) : option string :=
  orStr (orStr (orStr (orStr (orStr (orStr (orStr
    (NodeData.processFile nodeData)
    (NodeData.txtFile nodeData))
    (NodeData.yamlFile nodeData))
    (NodeData.docxFile nodeData))
    (NodeData.jsonlinesFile nodeData))
    (NodeData.csvFile nodeData))
    (NodeData.jsonFile nodeData))
    (NodeData.fileObject nodeData).

(** Lines 131-195: the documents of all uploaded files. *)
Definition loadFiles (env : Collaborators) (nodeData : NodeData.t) : M (list Document) :=
  let textSplitter := NodeData.textSplitter nodeData in
  let customOcrApiUrl := NodeData.customOcrApiUrl nodeData in
  let usage := NodeData.usage nodeData in
  let customOcrApiKey := credentialApiKey env in
  let legacyBuild := NodeData.legacyBuild nodeData in
  (if nonEmpty (fileBase64 nodeData) then
     let fileBase64 := default "" (fileBase64 nodeData) in
     if startsWith fileBase64 "FILE-STORAGE::" then
       let fileName := replace "FILE-STORAGE::" "" fileBase64 in
       files <- lift (fileList env fileName) ;;
       forEachFile
         (storageStep env customOcrApiUrl customOcrApiKey textSplitter usage legacyBuild)
         files []
     else
       files <- lift (fileList env fileBase64) ;;
       forEachFile
         (inlineStep env customOcrApiUrl customOcrApiKey textSplitter usage legacyBuild)
         files []
   else throw (Error "File upload is required"))%M.

Definition init (env : Collaborators) (nodeData : NodeData.t) : M Output :=
  (docs <- loadFiles env nodeData ;;
   docs <- lift (applyMetadata env (NodeData.metadata nodeData) docs) ;;
   if bool_decide (NodeData.output nodeData = Some "document")
   then ret (Documents docs)
   else ret (Text (handleEscapeCharacters env (finalText docs))))%M.

(** ** The loader as [init] configures it *)

(** The recognised upload fields, in the order [init] consults them. *)
Definition uploadFields (nodeData : NodeData.t) : list (option string) :=
  [ NodeData.processFile nodeData; NodeData.txtFile nodeData; NodeData.yamlFile nodeData;
    NodeData.docxFile nodeData; NodeData.jsonlinesFile nodeData; NodeData.csvFile nodeData;
    NodeData.jsonFile nodeData; NodeData.fileObject nodeData ].

(** The loader's methods with the instance fields as [init] sets them. *)
Definition remoteOcr (env : Collaborators) (nodeData : NodeData.t)
  : Buffer → string → M (list Document) :=
  postFilesToCustomApi env (NodeData.customOcrApiUrl nodeData) (credentialApiKey env)
    (NodeData.usage nodeData).

Definition processOne (env : Collaborators) (nodeData : NodeData.t)
  : Buffer → string → list Document → M (list Document) :=
  processBuffer env (NodeData.customOcrApiUrl nodeData) (credentialApiKey env)
    (NodeData.textSplitter nodeData) (NodeData.usage nodeData) (NodeData.legacyBuild nodeData).

Definition storageLoop (env : Collaborators) (nodeData : NodeData.t)
  : list string → list Document → M (list Document) :=
  forEachFile (storageStep env (NodeData.customOcrApiUrl nodeData) (credentialApiKey env)
                 (NodeData.textSplitter nodeData) (NodeData.usage nodeData)
                 (NodeData.legacyBuild nodeData)).

Definition inlineLoop (env : Collaborators) (nodeData : NodeData.t)
  : list string → list Document → M (list Document) :=
  forEachFile (inlineStep env (NodeData.customOcrApiUrl nodeData) (credentialApiKey env)
                 (NodeData.textSplitter nodeData) (NodeData.usage nodeData)
                 (NodeData.legacyBuild nodeData)).

(** Both a non-empty endpoint URL and a non-empty API key are configured. *)
Definition ocrConfigured (env : Collaborators) (nodeData : NodeData.t) : Prop :=
  ∃ url key,
    NodeData.customOcrApiUrl nodeData = Some url ∧ url ≠ "" ∧
    credentialApiKey env = Some key ∧ key ≠ "".

(** ** The two strategies *)





(** ** Reading the trace *)

(** The two strategies, as they show in the trace. *)
Definition isOcrPost (ev : Event) : bool :=
  match ev with
  | OcrPost _ => true
  | _ => false
  end.

Definition isPdfLoad (ev : Event) : bool :=
  match ev with
  | PdfLoad _ _ _ => true
  | _ => false
  end.



(** ** Inline data URIs *)

(** The file name and the base64 text that [inlineStep] takes from a data
    URI. *)
Definition inlineFilename (file : string) : string :=
  dataUriFilename (reverse (split "," file)).

Definition inlinePayload (file : string) : string :=
  dataUriPayload (reverse (split "," file)).

(** [c] does not occur in [s]. *)
Fixpoint noChar (c : ascii) (s : string) : bool :=
  match s with
  | EmptyString => true
  | String x r => negb (Ascii.eqb x c) && noChar c r
  end.

(** The upload format of the platform:
    [<media type>,<base64>,filename:<name>]. *)
Definition dataUri (mediaPrefix payload name : string) : string :=
  mediaPrefix +:+ "," +:+ payload +:+ ",filename:" +:+ name.

(** ** Entries, pages and their metadata *)

(** An entry of the shape the endpoint is expected to send: a string, or
    an object whose [pageContent], [text] and [content] are strings where
    present. *)
Definition stringOrAbsent (o : option JsVal) : bool :=
  match o with
  | Some (JStr _) | None => true
  | Some _ => false
  end.

Definition wellFormedEntry (item : JsVal) : bool :=
  match item with
  | JStr _ => true
  | JObj m =>
      stringOrAbsent (m !! "pageContent") && stringOrAbsent (m !! "text")
      && stringOrAbsent (m !! "content")
  | _ => false
  end.

(** The field an entry's text is read from by the code: the first one
    whose value is truthy. *)
Definition firstTruthyField (item : JsVal) : JsVal :=
  let field name := getPropOpt (Some item) name in
  if truthy_opt (field "pageContent") then default JNull (field "pageContent")
  else if truthy_opt (field "text") then default JNull (field "text")
  else if truthy_opt (field "content") then default JNull (field "content")
  else JStr "".

(** A file name that ends in [.pdf] whatever the case of its letters. *)
Definition endsInPdf (filename : string) : Prop :=
  ∃ stem ext, filename = stem +:+ ext ∧ toLowerCase ext = ".pdf".

(** [{ from: 1, to: n }] *)
Definition lineRange (n : nat) : JsVal :=
  JObj {[ "from" := jsNat 1; "to" := jsNat n ]}.

(** The [lines] of a page in priority order: the entry's own [lines]
    when truthy, else the truthy [lines] of its metadata, else the
    computed range of a text that is not empty; [None] for an empty
    text. *)
Definition linesByPriority (item : JsVal) (text : string) : option JsVal :=
  let own := getPropOpt (Some item) "lines" in
  let nested := getPropOpt (getPropOpt (Some item) "metadata") "lines" in
  if truthy_opt own then own
  else if truthy_opt nested then nested
  else if String.eqb text "" then None
  else Some (lineRange (lineCount text)).

(** The entry's object-level metadata, merged over the base metadata:
    its own properties except one named [__proto__], which an assignment
    never makes a property of the result. *)
Definition entryMetadata (filename : string) (item : JsVal) : JsObject :=
  let md := getPropOpt (Some item) "metadata" in
  if truthy_opt md
  then delete "__proto__" (ownProps (default JNull md)) ∪ baseMetadata filename
  else baseMetadata filename.

(** The page the specification describes for entry [index] of a PDF:
    its text, the merged metadata, and a [loc] with the page number and
    the lines. *)
Definition pdfPage (filename : string) (index : nat) (item : JsVal) (text : string) : Document :=
  mkDocument text
    (<[ "loc" := JObj (locObject index (linesByPriority item text)) ]>
       (entryMetadata filename item)).

(** The metadata of the per-file document: the base, under the metadata
    of the first entry. *)
Definition fileMetadata (filename : string) (items : list JsVal) : JsObject :=
  match items with
  | item :: _ => entryMetadata filename item
  | [] => baseMetadata filename
  end.

(** The strings the per-file branch joins: the first text, and every
    later one behind its marker. *)
Fixpoint markedFrom (index : nat) (texts : list string) : list string :=
  match texts with
  | [] => []
  | s :: rest =>
      (match index with
       | O => s
       | _ => "<PAGE_BREAK>" +:+ pretty (index + 1)%nat +:+ "</PAGE_BREAK>" +:+ nl +:+ nl +:+ s
       end) :: markedFrom (S index) rest
  end.

(** The text of the per-file document in the specification's words: the
    first text, then every later text preceded by a blank line, its
    marker and another blank line. *)
Definition pageBreak (pageNumber : nat) : string :=
  "<PAGE_BREAK>" +:+ pretty pageNumber +:+ "</PAGE_BREAK>".

Definition blankLine : string := nl +:+ nl.

Fixpoint laterPages (index : nat) (texts : list string) : string :=
  match texts with
  | [] => ""
  | s :: rest =>
      blankLine +:+ pageBreak (index + 1) +:+ blankLine +:+ s +:+ laterPages (S index) rest
  end.

Definition joinedWithPageBreaks (texts : list string) : string :=
  match texts with
  | [] => ""
  | s :: rest => s +:+ laterPages 1 rest
  end.

(** [needle] occurs in [s]. *)
Definition mentions (s needle : string) : Prop :=
  ∃ before after, s = before +:+ needle +:+ after.

(** ** Sentences of the specification, as they are stated *)

(** "The first present field among [pageContent], [text], [content],
    defaulting to empty string if none present." *)
Definition firstPresentField (item : JsVal) : JsVal :=
  match getPropOpt (Some item) "pageContent" with
  | Some v => v
  | None =>
      match getPropOpt (Some item) "text" with
      | Some v => v
      | None => default (JStr "") (getPropOpt (Some item) "content")
      end
  end.

(** The text-extraction sentence of the specification, for every entry
    that is not a string. *)
Definition entryTextAsStated : Prop :=
  ∀ item : JsVal, (∀ s, item ≠ JStr s) → entryText item = OK (firstPresentField item).

(** The [lines] of a page as the specification words it: the entry's
    [lines] field, else the one inside its metadata, else the computed
    range, whatever the text. *)
Definition linesAsStated (item : JsVal) (text : string) : JsVal :=
  match getPropOpt (Some item) "lines" with
  | Some ln => ln
  | None =>
      match getPropOpt (getPropOpt (Some item) "metadata") "lines" with
      | Some ln => ln
      | None => lineRange (lineCount text)
      end
  end.

(** The per-page sentence of the specification, for every response
    array. *)
Definition perPageAsStated : Prop :=
  ∀ (items : list JsVal) (filename : string),
    endsInPdf filename →
    ∃ docs,
      extractDocsFromCustomApi (Some "perPage") items filename = OK docs ∧
      length docs = length items ∧
      ∀ i item, items !! i = Some item →
        ∃ d loc,
          docs !! i = Some d ∧
          metadata d !! "loc" = Some (JObj loc) ∧
          loc !! "pageNumber" = Some (jsNat (i + 1)) ∧
          loc !! "lines" = Some (linesAsStated item (pageContent d)).

(** The per-file sentence of the specification, for every response
    array: one document, with [source] and [custom_ocr] as set by the
    normaliser. *)
Definition perFileAsStated : Prop :=
  ∀ (items : list JsVal) (filename : string),
    ∃ d,
      extractDocsFromCustomApi (Some "perFile") items filename = OK [d] ∧
      metadata d !! "source" = Some (JStr filename) ∧
      metadata d !! "custom_ocr" = Some (JBool true).

(** "Split on the first comma": the part before it and the part after. *)
Fixpoint splitFirstComma (s : string) : string * string :=
  match s with
  | EmptyString => (EmptyString, EmptyString)
  | String c r =>
      if Ascii.eqb c "," then (EmptyString, r)
      else let (prefix, payload) := splitFirstComma r in (String c prefix, payload)
  end.

(** The data-URI sentence of the specification: the payload is what
    follows the first comma. *)
Definition payloadAfterFirstCommaAsStated : Prop :=
  ∀ file : string, inlinePayload file = (splitFirstComma file).2.

(** ** Concrete collaborators, for running the model *)

(** No network, no storage, no PDF engine: every I/O collaborator fails. *)
Definition offline : Collaborators :=
  {| credentialApiKey := None;
     getFileFromStorage := fun _ _ => Throw (Error "ENOENT");
     fetch := fun _ _ => Throw (Error "ECONNREFUSED");
     PDFLoader_load := fun _ _ _ _ => Throw (Error "Invalid PDF structure");
     JSON_parse_files := fun _ => Throw (SyntaxError "Unexpected token");
     JSON_parse := fun _ => Throw (SyntaxError "Unexpected token");
     Buffer_from_base64 := fun _ => [];
     base64_of_utf8 := fun s => s;
     handleEscapeCharacters := fun s => s |}.

(** An endpoint that answers by file name, a storage holding four keys,
    and an API key. *)
Definition twoPages : JsVal := JArr [JStr "page one"; JStr "page two"].

Definition scriptedFetch (req : Request) : result Response :=
  if String.eqb (req_filename req) "good.pdf" then
    OK (mkResponse true 200 (OK "[...]") (OK twoPages))
  else if String.eqb (req_filename req) "object.pdf" then
    OK (mkResponse true 200 (OK "{}") (OK (JObj {[ "pages" := twoPages ]})))
  else if String.eqb (req_filename req) "down.pdf" then
    Throw (Error "connect ECONNREFUSED 127.0.0.1:8000")
  else
    OK (mkResponse false 500 (OK "Internal Server Error")
          (Throw (SyntaxError "Unexpected token I in JSON at position 0"))).

(** The double quote, and two JSON texts the scripted parser knows. *)
Definition dq : string := String (Ascii.ascii_of_nat 34) EmptyString.

Definition threeKeysText : string :=
  "[" +:+ dq +:+ "good.pdf" +:+ dq +:+ "," +:+ dq +:+ "down.pdf" +:+ dq +:+ ","
      +:+ dq +:+ "good.pdf" +:+ dq +:+ "]".

Definition tagOverlayText : string :=
  "{" +:+ dq +:+ "tag" +:+ dq +:+ ":" +:+ dq +:+ "x" +:+ dq +:+ "}".

Definition scripted : Collaborators :=
  {| credentialApiKey := Some "secret";
     getFileFromStorage := fun _ file => OK [];
     fetch := fun _ req => scriptedFetch req;
     PDFLoader_load := fun _ splitPages _ _ =>
       OK [mkDocument "local text" {[ "source" := JStr "blob" ]}];
     JSON_parse_files := fun s =>
       if String.eqb s threeKeysText
       then OK ["good.pdf"; "down.pdf"; "good.pdf"]
       else Throw (SyntaxError "Unexpected token");
     JSON_parse := fun s =>
       if String.eqb s tagOverlayText then OK (JObj {[ "tag" := JStr "x" ]})
       else Throw (SyntaxError "Unexpected token");
     Buffer_from_base64 := fun _ => [];
     base64_of_utf8 := fun s => s;
     handleEscapeCharacters := fun s => s |}.

(** The same collaborators without an API key. *)
Definition scriptedNoKey : Collaborators :=
  {| credentialApiKey := None;
     getFileFromStorage := getFileFromStorage scripted;
     fetch := fetch scripted;
     PDFLoader_load := PDFLoader_load scripted;
     JSON_parse_files := JSON_parse_files scripted;
     JSON_parse := JSON_parse scripted;
     Buffer_from_base64 := Buffer_from_base64 scripted;
     base64_of_utf8 := base64_of_utf8 scripted;
     handleEscapeCharacters := handleEscapeCharacters scripted |}.

(** A node whose only upload is [upload], sent to the endpoint
    [http://localhost:8000/api/process], with the document output. *)
Definition nodeWith (upload : string) (usage : string) (additionalMetadata : option JsVal)
  : NodeData.t :=
  NodeData.mk (Some upload) None None None None None None None
              (Some "http://localhost:8000/api/process") None (Some usage)
              additionalMetadata false (Some "document").

(** A storage reference naming the three keys of [threeKeysText]. *)
Definition storageUpload : string := "FILE-STORAGE::" +:+ threeKeysText.

(** The request the scripted node sends for [filename]. *)
Definition scriptedRequest (filename : string) : Request :=
  ocrRequest scripted (Some "http://localhost:8000/api/process") (Some "secret") [] filename.

(** An endpoint that finds no page in any file. *)
Definition emptyAnswer : Collaborators :=
  {| credentialApiKey := Some "secret";
     getFileFromStorage := fun _ _ => OK [];
     fetch := fun _ _ => OK (mkResponse true 200 (OK "[]") (OK (JArr [])));
     PDFLoader_load := fun _ _ _ _ => OK [];
     JSON_parse_files := fun _ => Throw (SyntaxError "Unexpected token");
     JSON_parse := fun _ => Throw (SyntaxError "Unexpected token");
     Buffer_from_base64 := fun _ => [];
     base64_of_utf8 := fun s => s;
     handleEscapeCharacters := fun s => s |}.

(** A text splitter that rejects its configuration, and a per-file node
    that uses it. *)
Definition failingSplitter : TextSplitter :=
  mkTextSplitter (fun _ _ => Throw (Error "chunk size must be positive")).

Definition splittingNode : NodeData.t :=
  NodeData.mk (Some "x") None None None None None None None
    (Some "http://localhost:8000/api/process") (Some failingSplitter)
    (Some "perFile") None false (Some "document").

(** ** Further readings of strings, traces and results *)

(** How often [c] occurs in [s]. *)
Fixpoint countChar (c : ascii) (s : string) : nat :=
  match s with
  | EmptyString => 0
  | String x r => (if Ascii.eqb x c then 1 else 0) + countChar c r
  end.

(** The storage keys read in a trace, in the order of the reads. *)
Definition storageReads (evs : list Event) : list string :=
  omap (fun ev => match ev with StorageRead file => Some file | _ => None end) evs.

(** The requests posted in a trace, in the order of the posts. *)
Definition posts (evs : list Event) : list Request :=
  omap (fun ev => match ev with OcrPost req => Some req | _ => None end) evs.

(** The entries of an upload list that the loops do not skip. *)
Definition nonEmptyFiles (files : list string) : list string :=
  filter (fun file => file ≠ "") files.

(** A run of a loop or a step, with [docs] put in front of the documents
    it returns. *)
Definition prepend (docs : list Document) (run : result (list Document) * Trace)
  : result (list Document) * Trace :=
  match run with
  | (OK new, t) => (OK (docs ++ new), t)
  | (Throw e, t) => (Throw e, t)
  end.

(** The message every failure of the remote call carries in front. *)
Definition remotePrefix : string := "Failed to process file with Custom OCR API: ".

(** An upload value written as a list: [[...]]. *)
Definition bracketed (s : string) : bool := startsWith s "[" && endsWith s "]".

(** The request [inlineStep] sends for an inline upload. *)
Definition inlineRequest (env : Collaborators) (nodeData : NodeData.t) (file : string)
  : Request :=
  ocrRequest env (NodeData.customOcrApiUrl nodeData) (credentialApiKey env)
    (Buffer_from_base64 env (inlinePayload file)) (inlineFilename file).

(** Where a request goes, with which credentials, and for which file. *)
Definition destination (req : Request) : string * string * string :=
  (req_url req, req_Authorization req, req_filename req).

(** ** Examples from the specification *)

Example perPage_two_pages :
  extractDocsFromCustomApi (Some "perPage") [JStr "page one"; JStr "page two"] "doc.pdf"
  = OK [ mkDocument "page one"
           (<[ "loc" := JObj (<[ "lines" := JObj {[ "from" := JNum "1"; "to" := JNum "1" ]} ]>
                                {[ "pageNumber" := JNum "1" ]}) ]> (baseMetadata "doc.pdf"));
         mkDocument "page two"
           (<[ "loc" := JObj (<[ "lines" := JObj {[ "from" := JNum "1"; "to" := JNum "1" ]} ]>
                                {[ "pageNumber" := JNum "2" ]}) ]> (baseMetadata "doc.pdf")) ].
Proof. vm_compute. reflexivity. Qed.

Example perFile_two_pages :
  extractDocsFromCustomApi (Some "perFile") [JStr "page one"; JStr "page two"] "doc.pdf"
  = OK [ mkDocument
           ("page one" +:+ nl +:+ nl +:+ "<PAGE_BREAK>2</PAGE_BREAK>" +:+ nl +:+ nl +:+ "page two")
           (baseMetadata "doc.pdf") ].
Proof. vm_compute. reflexivity. Qed.

(** The text output of two pages ["a"] and ["b"], before escaping. *)
Example finalText_two_pages :
  finalText [mkDocument "a" ∅; mkDocument "b" ∅] = "a" +:+ nl +:+ "b" +:+ nl.
Proof. reflexivity. Qed.

(** The overlay [{tag: "x"}] on three pages. *)
Example overlay_three_pages :
  applyMetadata offline (Some (JObj {[ "tag" := JStr "x" ]}))
    [mkDocument "p1" {[ "source" := JStr "a.pdf" ]};
     mkDocument "p2" {[ "tag" := JStr "old" ]};
     mkDocument "p3" ∅]
  = OK [mkDocument "p1" {[ "source" := JStr "a.pdf"; "tag" := JStr "x" ]};
        mkDocument "p2" {[ "tag" := JStr "x" ]};
        mkDocument "p3" {[ "tag" := JStr "x" ]}].
Proof. vm_compute. reflexivity. Qed.

(** The keys of a storage reference are read in the listed order, up to
    the one whose processing fails. *)
Example storage_keys_in_order :
  (init scripted (nodeWith storageUpload "perPage" None) []).2
  = [StorageRead "good.pdf"; OcrPost (scriptedRequest "good.pdf");
     StorageRead "down.pdf"; OcrPost (scriptedRequest "down.pdf")].
Proof. vm_compute. reflexivity. Qed.

(** ** Strings *)

Lemma toLowerCase_app (a b : string) :
  toLowerCase (a +:+ b) = toLowerCase a +:+ toLowerCase b.
Proof. induction a as [|c a IH]; simpl; [done | by rewrite IH]. Qed.

Lemma endsWith_refl (s : string) : endsWith s s = true.
Proof. destruct s; simpl; [done |]. by rewrite Ascii.eqb_refl, String.eqb_refl. Qed.

Lemma endsWith_app (a b : string) : endsWith (a +:+ b) b = true.
Proof.
  induction a as [|c a IH]; simpl.
  - apply endsWith_refl.
  - rewrite IH. apply orb_true_r.
Qed.

Lemma isPdf_endsInPdf (filename : string) : endsInPdf filename → isPdf filename = true.
Proof.
  intros (stem & ext & -> & Hext). unfold isPdf.
  rewrite toLowerCase_app, Hext. apply endsWith_app.
Qed.

Lemma string_app_assoc (a b c : string) : (a +:+ b) +:+ c = a +:+ b +:+ c.
Proof.
  induction a as [|x a IH]; [reflexivity|].
  change (String x ((a +:+ b) +:+ c) = String x (a +:+ b +:+ c)). by f_equal.
Qed.

Lemma string_app_nil_r (a : string) : a +:+ "" = a.
Proof.
  induction a as [|x a IH]; [reflexivity|].
  change (String x (a +:+ "") = String x a). by f_equal.
Qed.

(** ** Fallible results *)

Lemma bind_OK_inv {A B} (m : result A) (f : A → result B) (b : B) :
  m ≫= f = OK b → ∃ a, m = OK a ∧ f a = OK b.
Proof. destruct m as [a|e]; [by exists a | done]. Qed.

Lemma newDocument_metadata (content : JsVal) (md : JsObject) (d : Document) :
  newDocument content md = OK d → metadata d = md.
Proof.
  unfold newDocument. intros (s & _ & [= <-])%bind_OK_inv. done.
Qed.

(** The method call and the conversion give the same string. *)
Lemma toStringMethod_OK (content : JsVal) (s : string) :
  toStringMethod content = OK s → ToString content = OK s.
Proof.
  destruct content as [| | | | |m]; try done.
  simpl. by destruct (m !! "toString").
Qed.

Lemma ToString_method (content : JsVal) (s : string) :
  content ≠ JNull → ToString content = OK s → toStringMethod content = OK s.
Proof.
  destruct content as [| | | | |m]; try done.
  simpl. by destruct (m !! "toString").
Qed.

(** ** The normaliser on well-formed entries *)

(** The text of a well-formed entry is a string. *)
Lemma entryText_wellFormed (item : JsVal) :
  wellFormedEntry item = true →
  ∃ text, entryText item = OK (JStr text) ∧
          (∀ s, item = JStr s → text = s) ∧
          (∀ m, item = JObj m → JStr text = firstTruthyField item).
Proof.
  destruct item as [| | |s|l|m]; try done; intros Hwf.
  - exists s. split; [done|]. split; [by intros ? [= ->] | done].
  - simpl in Hwf. apply andb_prop in Hwf as [Hwf Hc]. apply andb_prop in Hwf as [Hp Ht].
    unfold entryText, firstTruthyField, getProp, getPropOpt, orElse. simpl.
    destruct (m !! "pageContent") as [[]|]; try done;
    destruct (m !! "text") as [[]|]; try done;
    destruct (m !! "content") as [[]|]; try done; simpl;
    repeat case_match; eexists; (split; [reflexivity|]); (split; [discriminate|]);
    reflexivity.
Qed.

Lemma mergeEntryMetadata_spec (filename : string) (item : JsVal) :
  item ≠ JNull →
  mergeEntryMetadata (baseMetadata filename) item = OK (entryMetadata filename item).
Proof.
  intros Hnull. unfold mergeEntryMetadata, entryMetadata, Object_assign.
  destruct item as [| | | | |m]; try done. simpl.
  by destruct (truthy_opt (m !! "metadata")).
Qed.

Lemma locLines_spec (item : JsVal) (text : string) :
  item ≠ JNull →
  locLines item (JStr text) = OK (linesByPriority item text).
Proof.
  intros Hnull. unfold locLines, linesByPriority, lineRange.
  destruct item as [| | | | |m]; try done; simpl;
    try (by destruct (String.eqb text "")).
  destruct (truthy_opt (m !! "lines")); [done|].
  destruct (truthy_opt (getPropOpt (m !! "metadata") "lines")); [done|].
  by destruct (String.eqb text "").
Qed.

Lemma pageDocument_pdf (filename : string) (index : nat) (item : JsVal) (text : string) :
  isPdf filename = true →
  item ≠ JNull →
  entryText item = OK (JStr text) →
  pageDocument filename index item = OK (pdfPage filename index item text).
Proof.
  intros Hpdf Hnull Htext. unfold pageDocument.
  rewrite Htext. simpl. rewrite mergeEntryMetadata_spec by done. simpl.
  rewrite Hpdf, locLines_spec by done. reflexivity.
Qed.

Lemma wellFormedEntry_not_null (item : JsVal) : wellFormedEntry item = true → item ≠ JNull.
Proof. by destruct item. Qed.

Lemma perPageDocuments_pdf (filename : string) (items : list JsVal) :
  isPdf filename = true →
  Forall (fun item => wellFormedEntry item = true) items →
  ∀ index, ∃ docs,
    perPageDocuments filename index items = OK docs ∧
    length docs = length items ∧
    ∀ i item, items !! i = Some item →
      ∃ text, entryText item = OK (JStr text) ∧
              docs !! i = Some (pdfPage filename (index + i) item text).
Proof.
  intros Hpdf. induction 1 as [|item items Hwf _ IH]; intros index.
  - exists []. split; [done|]. split; [done|]. by intros i item.
  - destruct (entryText_wellFormed item Hwf) as (text & Htext & _).
    destruct (IH (S index)) as (docs & Hdocs & Hlen & Hnth).
    exists (pdfPage filename index item text :: docs). simpl.
    rewrite (pageDocument_pdf _ _ _ text), Hdocs
      by eauto using wellFormedEntry_not_null.
    split; [done|]. split; [by rewrite Hlen|].
    intros [|i] item' Hi; simpl in *.
    + injection Hi as <-. exists text. by rewrite Nat.add_0_r.
    + destruct (Hnth i item' Hi) as (text' & ? & ?). exists text'.
      by replace (index + S i)%nat with (S index + i)%nat by lia.
Qed.

Lemma isPerFile_false (usage : option string) :
  usage ≠ Some "perFile" → isPerFile usage = false.
Proof.
  destruct usage as [u|]; [|done]. simpl. intros Hne.
  destruct (String.eqb_spec u "perFile"); congruence.
Qed.

Lemma doc_pdf_endsInPdf : endsInPdf "doc.pdf".
Proof. by exists "doc", ".pdf". Qed.

(** ** The normaliser on any entry it accepts *)

(** The text of an entry is never [null], and is the empty string when it
    is falsy. *)
Lemma entryText_value (item content : JsVal) :
  entryText item = OK content →
  item ≠ JNull ∧ content ≠ JNull ∧ (truthy content = false → content = JStr "").
Proof.
  assert (∀ s, truthy (JStr s) = false → JStr s = JStr "") as Hstr.
  { intros s Hs. simpl in Hs. apply negb_false_iff in Hs.
    by apply String.eqb_eq in Hs as ->. }
  destruct item as [| | |s| |m]; try done; simpl;
    try (intros [= <-]; split; [done|]; split; done).
  - intros [= <-]. split; [done|]. split; [done|]. apply Hstr.
  - unfold orElse.
    destruct (m !! "pageContent") as [pc|]; simpl;
      [destruct (truthy pc) eqn:Hpc;
        [intros [= <-]; split; [done|]; split; [by destruct pc | congruence] |] |];
      (destruct (m !! "text") as [tx|]; simpl;
        [destruct (truthy tx) eqn:Htx;
          [intros [= <-]; split; [done|]; split; [by destruct tx | congruence] |] |]);
      (destruct (m !! "content") as [ct|]; simpl;
        [destruct (truthy ct) eqn:Hct;
          intros [= <-]; split; try done; split; try done; try (by destruct ct); congruence
        | intros [= <-]; split; [done|]; split; done]).
Qed.

Lemma locLines_inv (item content : JsVal) (lines : option JsVal) (text : string) :
  item ≠ JNull →
  (truthy content = false → content = JStr "") →
  locLines item content = OK lines →
  ToString content = OK text →
  lines = linesByPriority item text.
Proof.
  intros Hnull Hfalsy Hlines Htext.
  assert ((if truthy content
           then match content with
                | JStr s => OK (Some (JObj {[ "from" := jsNat 1;
                                              "to" := jsNat (lineCount s) ]}))
                | _ => Throw (TypeError "pageContent.split is not a function")
                end
           else OK None) = OK lines →
          lines = if String.eqb text "" then None else Some (lineRange (lineCount text)))
    as Hthird.
  { destruct (truthy content) eqn:Htruthy.
    - destruct content; try done. injection Htext as <-.
      simpl in Htruthy. apply negb_true_iff in Htruthy. rewrite Htruthy.
      by intros [= <-].
    - rewrite (Hfalsy eq_refl) in Htext. injection Htext as <-. by intros [= <-]. }
  unfold locLines in Hlines. unfold linesByPriority.
  destruct item as [| | | | |m]; try done; simpl in *; try by apply Hthird.
  destruct (truthy_opt (m !! "lines")); [by injection Hlines|].
  destruct (truthy_opt (getPropOpt (m !! "metadata") "lines")); [by injection Hlines|].
  by apply Hthird.
Qed.

Lemma pageDocument_pdf_inv (filename : string) (index : nat) (item : JsVal) (d : Document) :
  isPdf filename = true →
  pageDocument filename index item = OK d →
  ∃ content,
    entryText item = OK content ∧
    ToString content = OK (pageContent d) ∧
    metadata d = <[ "loc" := JObj (locObject index (linesByPriority item (pageContent d))) ]>
                   (entryMetadata filename item).
Proof.
  intros Hpdf Hd. unfold pageDocument in Hd.
  apply bind_OK_inv in Hd as (content & Hcontent & Hd).
  destruct (entryText_value _ _ Hcontent) as (Hnull & _ & Hfalsy).
  rewrite mergeEntryMetadata_spec in Hd by done. simpl in Hd. rewrite Hpdf in Hd.
  apply bind_OK_inv in Hd as (lines & Hlines & Hd).
  unfold newDocument in Hd. apply bind_OK_inv in Hd as (text & Htext & [= <-]).
  apply toStringMethod_OK in Htext.
  exists content. split; [done|]. split; [done|]. simpl.
  by rewrite (locLines_inv _ _ _ _ Hnull Hfalsy Hlines Htext).
Qed.

Lemma perPageDocuments_lookup (filename : string) (items : list JsVal) :
  ∀ index docs,
    perPageDocuments filename index items = OK docs →
    length docs = length items ∧
    ∀ i item, items !! i = Some item →
      ∃ d, docs !! i = Some d ∧ pageDocument filename (index + i) item = OK d.
Proof.
  induction items as [|item0 items IH]; intros index docs Hdocs.
  - injection Hdocs as <-. split; [done|]. by intros i item.
  - simpl in Hdocs.
    apply bind_OK_inv in Hdocs as (d0 & Hd0 & Hdocs).
    apply bind_OK_inv in Hdocs as (ds & Hds & [= <-]).
    destruct (IH _ _ Hds) as (Hlen & Hnth).
    split; [by rewrite !length_cons, Hlen|].
    intros [|i] item Hi; simpl in *.
    + injection Hi as <-. exists d0. by rewrite Nat.add_0_r.
    + destruct (Hnth i item Hi) as (d & ? & ?). exists d.
      by replace (index + S i)%nat with (S index + i)%nat by lia.
Qed.

(** ** The per-file branch *)

Lemma joinElements_strings (texts : list string) :
  joinElements (JStr <$> texts) = OK texts.
Proof.
  induction texts as [|s texts IH]; [done|].
  rewrite fmap_cons. cbn [joinElements]. by rewrite IH.
Qed.

Lemma fileParts_wellFormed (items : list JsVal) :
  Forall (fun item => wellFormedEntry item = true) items →
  ∀ index, ∃ texts,
    Forall2 (fun item text => entryText item = OK (JStr text)) items texts ∧
    fileParts index items = OK (JStr <$> markedFrom index texts).
Proof.
  induction 1 as [|item items Hwf _ IH]; intros index.
  - exists []. by split; [constructor|].
  - destruct (entryText_wellFormed item Hwf) as (text & Htext & _).
    destruct (IH (S index)) as (texts & Hall & Hparts).
    exists (text :: texts). split; [by constructor|].
    simpl. unfold filePart. rewrite Htext. simpl.
    destruct index; simpl; by rewrite Hparts.
Qed.

Lemma concat_markedFrom (first : string) (texts : list string) (index : nat) :
  String.concat blankLine (first :: markedFrom (S index) texts)
  = first +:+ laterPages (S index) texts.
Proof.
  revert first index. induction texts as [|s texts IH]; intros first index.
  - simpl. by rewrite string_app_nil_r.
  - change (markedFrom (S index) (s :: texts))
      with (("<PAGE_BREAK>" +:+ pretty (S index + 1)%nat +:+ "</PAGE_BREAK>" +:+ nl +:+ nl +:+ s)
              :: markedFrom (S (S index)) texts).
    change (String.concat blankLine (first :: ?x :: ?l))
      with (first +:+ blankLine +:+ String.concat blankLine (x :: l)).
    rewrite IH. cbn [laterPages]. unfold pageBreak, blankLine.
    by rewrite !string_app_assoc.
Qed.

Lemma concat_markedFrom_0 (texts : list string) :
  String.concat blankLine (markedFrom 0 texts) = joinedWithPageBreaks texts.
Proof. destruct texts as [|s texts]; [done|]. apply concat_markedFrom. Qed.

Lemma firstEntryMetadata_spec (filename : string) (items : list JsVal) :
  (if truthy_opt (firstEntryMetadata items)
   then Object_assign (baseMetadata filename) (default JNull (firstEntryMetadata items))
   else baseMetadata filename) = fileMetadata filename items.
Proof.
  destruct items as [|item items]; [done|].
  unfold fileMetadata, entryMetadata, Object_assign.
  by destruct item.
Qed.

Lemma fileParts_inv (items : list JsVal) :
  ∀ index parts strings,
    fileParts index items = OK parts →
    joinElements parts = OK strings →
    ∃ texts,
      Forall2 (fun item text =>
                 ∃ content, entryText item = OK content ∧ ToString content = OK text)
              items texts ∧
      strings = markedFrom index texts.
Proof.
  induction items as [|item items IH]; intros index parts strings Hparts Hjoin.
  - injection Hparts as <-. injection Hjoin as <-. exists []. by split; [constructor|].
  - simpl in Hparts.
    apply bind_OK_inv in Hparts as (p & Hp & Hparts).
    apply bind_OK_inv in Hparts as (ps & Hps & [= <-]).
    simpl in Hjoin.
    apply bind_OK_inv in Hjoin as (s & Hs & Hjoin).
    apply bind_OK_inv in Hjoin as (ss & Hss & [= <-]).
    destruct (IH _ _ _ Hps Hss) as (texts & Hall & ->).
    unfold filePart in Hp. apply bind_OK_inv in Hp as (content & Hcontent & Hp).
    destruct (entryText_value _ _ Hcontent) as (_ & Hnull & _).
    destruct index as [|index].
    + injection Hp as <-. exists (s :: texts). split; [|done].
      constructor; [|done]. exists content. split; [done|]. by destruct content.
    + apply bind_OK_inv in Hp as (text & Htext & [= <-]). injection Hs as <-.
      exists (text :: texts). split; [|done].
      constructor; [|done]. by exists content.
Qed.

(** ** [init] and its trace *)

Lemma forEachFile_abort (step : string → list Document → M (list Document))
    (pre post : list string) (file : string) (docs docs1 : list Document)
    (t t1 t2 : Trace) (e : Exn) :
  forEachFile step pre docs t = (OK docs1, t1) →
  step file docs1 t1 = (Throw e, t2) →
  forEachFile step (pre ++ file :: post) docs t = (Throw e, t2).
Proof.
  revert docs t. induction pre as [|f pre IH]; intros docs t Hpre Hstep.
  - injection Hpre as -> ->. simpl. unfold bind. by rewrite Hstep.
  - simpl in *. unfold bind in *.
    destruct (step f docs t) as [[docs'|e'] t']; [|done].
    by apply IH.
Qed.

Lemma remoteOcr_trace (env : Collaborators) (nodeData : NodeData.t)
    (buffer : Buffer) (filename : string) (t : Trace) :
  (remoteOcr env nodeData buffer filename t).2
  = t ++ [OcrPost (ocrRequest env (NodeData.customOcrApiUrl nodeData) (credentialApiKey env)
                     buffer filename)].
Proof.
  unfold remoteOcr, postFilesToCustomApi, tryCatch, bind, call, lift, throw.
  destruct (fetch env t _) as [response|e]; [|done].
  destruct (negb (ok response)).
  - by destruct (text response).
  - destruct (json response) as [[]|]; try done.
    by destruct (extractDocsFromCustomApi _ _ _).
Qed.

Lemma processOne_remote_failure (env : Collaborators) (nodeData : NodeData.t)
    (buffer : Buffer) (filename : string) (docs : list Document) (t t' : Trace) (e : Exn) :
  ocrConfigured env nodeData →
  remoteOcr env nodeData buffer filename t = (Throw e, t') →
  processOne env nodeData buffer filename docs t = (Throw e, t').
Proof.
  intros (url & key & Hurl & Hne & Hkey & Hkne) Hremote.
  unfold processOne, processBuffer, useCustomApi.
  rewrite Hurl, Hkey. simpl.
  destruct (String.eqb_spec url ""); [done|].
  destruct (String.eqb_spec key ""); [done|]. simpl.
  unfold bind. unfold remoteOcr in Hremote. rewrite <- Hurl, <- Hkey.
  by rewrite Hremote.
Qed.

Lemma init_loadFiles_throw (env : Collaborators) (nodeData : NodeData.t)
    (t t' : Trace) (e : Exn) :
  loadFiles env nodeData t = (Throw e, t') → init env nodeData t = (Throw e, t').
Proof. intros Hload. unfold init, bind. by rewrite Hload. Qed.

Lemma nonEmpty_Some (s : string) : s ≠ "" → nonEmpty (Some s) = true.
Proof. intros Hs. simpl. by destruct (String.eqb_spec s ""). Qed.

Lemma useCustomApi_configured (env : Collaborators) (nodeData : NodeData.t) :
  useCustomApi (NodeData.customOcrApiUrl nodeData) (credentialApiKey env) = true
  ↔ ocrConfigured env nodeData.
Proof.
  unfold useCustomApi, ocrConfigured, nonEmpty. split.
  - intros [Hu Hk]%andb_prop.
    destruct (NodeData.customOcrApiUrl nodeData) as [url|]; [|done].
    destruct (credentialApiKey env) as [key|]; [|done].
    exists url, key. repeat split; try done.
    + intros ->. done.
    + intros ->. done.
  - intros (url & key & -> & Hu & -> & Hk).
    destruct (String.eqb_spec url ""); [done|].
    by destruct (String.eqb_spec key "").
Qed.








(** ** C1: one page per entry in per-page mode *)

(** C1 (as amended).  In per-page mode (any usage other than [perFile])
    and for a file name ending in [.pdf] in any letter case: whenever the
    normaliser returns, it returns one document per entry, in array order;
    document [i] holds the text of entry [i] converted to a string, its
    metadata is [source] and [custom_ocr] with the entry's metadata merged
    over them as [Object.assign] does (every own property of that
    metadata except one named [__proto__]), plus a [loc] made of
    [pageNumber = i + 1] and [lines], where [lines] is the entry's
    own truthy [lines], else the truthy [lines] of its metadata, else
    [{from: 1, to: lineCount}] when the text is not empty, and is absent
    when the text is empty.  The normaliser does return on every array of
    well-formed entries (strings, or objects whose text fields are
    strings).  The response [["page one", "page two"]] for [doc.pdf] gives
    two documents with page numbers 1 and 2 and lines [{from: 1, to: 1}]. *)
Theorem perPage_one_document_per_entry (usage : option string) (filename : string)
    (items : list JsVal) :
  usage ≠ Some "perFile" →
  endsInPdf filename →
  (∀ docs,
     extractDocsFromCustomApi usage items filename = OK docs →
     length docs = length items ∧
     ∀ i item, items !! i = Some item →
       ∃ d content loc,
         docs !! i = Some d ∧
         entryText item = OK content ∧
         ToString content = OK (pageContent d) ∧
         metadata d = <[ "loc" := JObj loc ]> (entryMetadata filename item) ∧
         loc !! "pageNumber" = Some (jsNat (i + 1)) ∧
         loc !! "lines" = linesByPriority item (pageContent d) ∧
         (∀ k, k ≠ "pageNumber" → k ≠ "lines" → loc !! k = None))
  ∧ (Forall (fun item => wellFormedEntry item = true) items →
     ∃ docs,
       extractDocsFromCustomApi usage items filename = OK docs ∧
       ∀ i item, items !! i = Some item →
         ∃ d, docs !! i = Some d ∧ entryText item = OK (JStr (pageContent d)))
  ∧ extractDocsFromCustomApi (Some "perPage") [JStr "page one"; JStr "page two"] "doc.pdf"
    = OK [ mkDocument "page one"
             (<[ "loc" := JObj {[ "pageNumber" := JNum "1"; "lines" := lineRange 1 ]} ]>
                {[ "source" := JStr "doc.pdf"; "custom_ocr" := JBool true ]});
           mkDocument "page two"
             (<[ "loc" := JObj {[ "pageNumber" := JNum "2"; "lines" := lineRange 1 ]} ]>
                {[ "source" := JStr "doc.pdf"; "custom_ocr" := JBool true ]}) ].
Proof.
  intros Husage Hpdf%isPdf_endsInPdf. split; [|split; [|by vm_compute]].
  - intros docs Hdocs. unfold extractDocsFromCustomApi in Hdocs.
    rewrite (isPerFile_false _ Husage) in Hdocs.
    destruct (perPageDocuments_lookup _ _ _ _ Hdocs) as (Hlen & Hnth).
    split; [done|]. intros i item Hi.
    destruct (Hnth i item Hi) as (d & Hd & Hpage).
    destruct (pageDocument_pdf_inv _ _ _ _ Hpdf Hpage) as (content & Hcontent & Htext & Hmd).
    exists d, content, (locObject i (linesByPriority item (pageContent d))).
    split; [done|]. split; [done|]. split; [done|]. split; [done|].
    unfold locObject. destruct (linesByPriority item (pageContent d)) as [ln|].
    + split; [by rewrite lookup_insert_ne, lookup_singleton_eq|].
      split; [by rewrite lookup_insert_eq|].
      intros k ? ?. by rewrite lookup_insert_ne, lookup_singleton_ne.
    + split; [by rewrite lookup_singleton_eq|].
      split; [by rewrite lookup_singleton_ne|].
      intros k ? ?. by rewrite lookup_singleton_ne.
  - intros Hwf. unfold extractDocsFromCustomApi. rewrite (isPerFile_false _ Husage).
    destruct (perPageDocuments_pdf filename items Hpdf Hwf 0) as (docs & Hdocs & _ & Hnth).
    exists docs. split; [done|]. intros i item Hi.
    destruct (Hnth i item Hi) as (text & Htext & Hd). by eexists.
Qed.

Lemma perPage_one_document_per_entry_witness :
  ∃ docs,
    extractDocsFromCustomApi (Some "perPage")
      [JStr "first"; JObj {[ "text" := JStr "second"; "metadata" := JObj {[ "lang" := JStr "th" ]} ]}]
      "Scan.PDF" = OK docs ∧
    length docs = 2%nat.
Proof.
  destruct (perPage_one_document_per_entry (Some "perPage") "Scan.PDF"
    [JStr "first"; JObj {[ "text" := JStr "second"; "metadata" := JObj {[ "lang" := JStr "th" ]} ]}])
    as (Hreturned & Htotal & _).
  - discriminate.
  - exists "Scan", ".PDF". split; reflexivity.
  - destruct Htotal as (docs & Hdocs & _); [repeat constructor|].
    exists docs. split; [exact Hdocs|]. exact (proj1 (Hreturned docs Hdocs)).
Defined.

(** The claim as the specification states it fails on a page whose text
    is empty: [loc] then carries no [lines] at all. *)
Lemma perPage_empty_page_has_no_lines :
  extractDocsFromCustomApi (Some "perPage") [JStr ""] "doc.pdf"
  = OK [ mkDocument ""
           (<[ "loc" := JObj {[ "pageNumber" := JNum "1" ]} ]>
              {[ "source" := JStr "doc.pdf"; "custom_ocr" := JBool true ]}) ]
  ∧ ¬ perPageAsStated.
Proof.
  split; [by vm_compute|].
  intros Hclaim.
  destruct (Hclaim [JStr ""] "doc.pdf" doc_pdf_endsInPdf) as (docs & Hdocs & _ & Hnth).
  destruct (Hnth 0%nat (JStr "") eq_refl) as (d & loc & Hd & Hloc & _ & Hlines).
  vm_compute in Hdocs. injection Hdocs as <-.
  injection Hd as <-. vm_compute in Hloc. injection Hloc as <-.
  vm_compute in Hlines. discriminate.
Qed.

(** ** C2: one document per file in per-file mode *)

(** C2 (as amended).  In per-file mode, whenever the normaliser returns,
    it returns exactly one document.  Its content is the texts of the
    entries in array order, every text after the first preceded by a blank
    line, the marker [<PAGE_BREAK>n</PAGE_BREAK>] with [n] its 1-based
    position, and another blank line.  Its metadata is [source = filename]
    and [custom_ocr = true] with the first entry's metadata merged over
    them as [Object.assign] does (every own property of that metadata
    except one named [__proto__]); it is exactly [source] and
    [custom_ocr] when the first entry has no metadata.  The normaliser does return on every array of well-formed
    entries.  For [["page one", "page two"]] the content is
    ["page one\n\n<PAGE_BREAK>2</PAGE_BREAK>\n\npage two"]. *)
Theorem perFile_one_document (filename : string) (items : list JsVal) :
  (∀ docs,
     extractDocsFromCustomApi (Some "perFile") items filename = OK docs →
     ∃ texts,
       Forall2 (fun item text =>
                  ∃ content, entryText item = OK content ∧ ToString content = OK text)
               items texts ∧
       docs = [mkDocument (joinedWithPageBreaks texts) (fileMetadata filename items)])
  ∧ (Forall (fun item => wellFormedEntry item = true) items →
     ∃ texts,
       Forall2 (fun item text => entryText item = OK (JStr text)) items texts ∧
       extractDocsFromCustomApi (Some "perFile") items filename
       = OK [mkDocument (joinedWithPageBreaks texts) (fileMetadata filename items)])
  ∧ ((∀ item, head items = Some item → getPropOpt (Some item) "metadata" = None) →
     fileMetadata filename items
     = {[ "source" := JStr filename; "custom_ocr" := JBool true ]})
  ∧ extractDocsFromCustomApi (Some "perFile") [JStr "page one"; JStr "page two"] "doc.pdf"
    = OK [mkDocument
            ("page one" +:+ nl +:+ nl +:+ "<PAGE_BREAK>2</PAGE_BREAK>" +:+ nl +:+ nl +:+ "page two")
            {[ "source" := JStr "doc.pdf"; "custom_ocr" := JBool true ]}].
Proof.
  split; [|split; [|split; [|by vm_compute]]].
  - intros docs Hdocs. unfold extractDocsFromCustomApi in Hdocs. simpl in Hdocs.
    apply bind_OK_inv in Hdocs as (d & Hd & [= <-]).
    unfold perFileDocument in Hd.
    apply bind_OK_inv in Hd as (parts & Hparts & Hd).
    apply bind_OK_inv in Hd as (content & Hjoin & Hd).
    unfold Array_join in Hjoin. apply bind_OK_inv in Hjoin as (strings & Hstrings & [= <-]).
    destruct (fileParts_inv _ _ _ _ Hparts Hstrings) as (texts & Hall & ->).
    exists texts. split; [done|].
    rewrite firstEntryMetadata_spec in Hd. injection Hd as <-.
    fold blankLine. by rewrite concat_markedFrom_0.
  - intros Hwf.
    destruct (fileParts_wellFormed items Hwf 0) as (texts & Hall & Hparts).
    exists texts. split; [done|].
    unfold extractDocsFromCustomApi, perFileDocument, Array_join. simpl.
    rewrite Hparts. simpl. rewrite joinElements_strings. simpl.
    rewrite firstEntryMetadata_spec. fold blankLine.
    by rewrite concat_markedFrom_0.
  - intros Hnone. destruct items as [|item items]; [done|].
    unfold fileMetadata, entryMetadata. by rewrite (Hnone item eq_refl).
Qed.

Lemma perFile_one_document_witness :
  ∃ texts,
    extractDocsFromCustomApi (Some "perFile")
      [JObj {[ "content" := JStr "a" ]}; JStr "b"; JObj {[ "text" := JStr "c" ]}] "scan.png"
    = OK [mkDocument (joinedWithPageBreaks texts)
            {[ "source" := JStr "scan.png"; "custom_ocr" := JBool true ]}]
    ∧ texts = ["a"; "b"; "c"].
Proof.
  destruct (perFile_one_document "scan.png"
    [JObj {[ "content" := JStr "a" ]}; JStr "b"; JObj {[ "text" := JStr "c" ]}])
    as (_ & Htotal & _).
  destruct Htotal as (texts & Hall & Hdoc); [repeat constructor|].
  exists texts. split; [exact Hdoc|].
  repeat match goal with
         | H : Forall2 _ _ _ |- _ => inversion H; clear H; subst
         end.
  repeat match goal with
         | H : entryText _ = OK _ |- _ => vm_compute in H; injection H as <-
         end.
  reflexivity.
Defined.

(** The claim as the specification states it fails when the first entry
    brings a [source] of its own: that one ends up in the document. *)
Lemma perFile_first_entry_overrides_source :
  extractDocsFromCustomApi (Some "perFile")
    [JObj {[ "pageContent" := JStr "a"; "metadata" := JObj {[ "source" := JStr "other" ]} ]}]
    "doc.pdf"
  = OK [mkDocument "a" {[ "source" := JStr "other"; "custom_ocr" := JBool true ]}]
  ∧ ¬ perFileAsStated.
Proof.
  split; [by vm_compute|].
  intros Hclaim.
  destruct (Hclaim
    [JObj {[ "pageContent" := JStr "a"; "metadata" := JObj {[ "source" := JStr "other" ]} ]}]
    "doc.pdf") as (d & Hd & Hsource & _).
  vm_compute in Hd. injection Hd as <-. vm_compute in Hsource. discriminate.
Qed.

(** ** C3: the segments of an inline data URI *)

Lemma split_cons (sep : ascii) (s : string) : ∃ seg segs, split sep s = seg :: segs.
Proof.
  induction s as [|c s (seg & segs & IH)]; simpl; [by eexists _, _|].
  destruct (Ascii.eqb c sep); [by eexists _, _|]. rewrite IH. by eexists _, _.
Qed.

Lemma split_app (sep : ascii) (a b : string) :
  split sep (a +:+ String sep b) = split sep a ++ split sep b.
Proof.
  induction a as [|c a IH].
  - change (split sep (String sep b) = [""] ++ split sep b).
    simpl. by rewrite Ascii.eqb_refl.
  - change (split sep (String c (a +:+ String sep b)) = split sep (String c a) ++ split sep b).
    simpl. rewrite IH. destruct (Ascii.eqb c sep); [done|].
    by destruct (split_cons sep a) as (seg & segs & ->).
Qed.

Lemma split_noChar (sep : ascii) (s : string) : noChar sep s = true → split sep s = [s].
Proof.
  induction s as [|c s IH]; simpl; [done|].
  intros [Hc Hs]%andb_prop. apply negb_true_iff in Hc. rewrite Hc.
  by rewrite (IH Hs).
Qed.

Lemma split_dataUri (mediaPrefix payload name : string) :
  noChar "," payload = true →
  noChar "," name = true →
  split "," (dataUri mediaPrefix payload name)
  = split "," mediaPrefix ++ [payload; "filename:" +:+ name].
Proof.
  intros Hpayload Hname. unfold dataUri.
  change (mediaPrefix +:+ "," +:+ payload +:+ ",filename:" +:+ name)
    with (mediaPrefix +:+ String "," (payload +:+ String "," ("filename:" +:+ name))).
  rewrite !split_app, (split_noChar _ payload Hpayload).
  rewrite (split_noChar "," ("filename:" +:+ name)); [done|].
  exact Hname.
Qed.

(** C3 (as amended).  An inline data URI is split on every comma.  The
    file name is read from the last segment (what stands between its
    first and second colon, empty without a colon), and the base64 payload
    is the segment before the last one (empty without a comma); the step
    for that file processes the decoded payload under that name.  For the
    platform's format [<media type>,<base64>,filename:<name>] this gives
    [<name>] and [<base64>], provided [<base64>] and [<name>] contain no
    comma and [<name>] contains no colon. *)
Theorem inline_data_uri_segments (env : Collaborators) (nodeData : NodeData.t) (file : string) :
  (∃ segments lastSegment,
     split "," file = segments ++ [lastSegment] ∧
     inlineFilename file = default "" (split ":" lastSegment !! 1%nat) ∧
     inlinePayload file = default "" (last segments)) ∧
  (∀ mediaPrefix payload name,
     file = dataUri mediaPrefix payload name →
     noChar "," payload = true →
     noChar "," name = true →
     noChar ":" name = true →
     inlineFilename file = name ∧ inlinePayload file = payload) ∧
  (file ≠ "" →
   ∀ docs t,
     inlineLoop env nodeData [file] docs t
     = processOne env nodeData (Buffer_from_base64 env (inlinePayload file))
         (inlineFilename file) docs t).
Proof.
  split; [|split].
  - destruct (split_cons "," file) as (seg & segs & Hsplit).
    destruct (exists_last (l := seg :: segs)) as (segments & lastSegment & Heq); [done|].
    exists segments, lastSegment. rewrite Hsplit. split; [done|].
    unfold inlineFilename, inlinePayload. rewrite Hsplit, Heq, reverse_snoc. simpl.
    split; [done|]. rewrite <- head_reverse. by destruct (reverse segments).
  - intros mediaPrefix payload name -> Hpayload Hname Hcolon.
    unfold inlineFilename, inlinePayload.
    rewrite split_dataUri by done.
    replace (split "," mediaPrefix ++ [payload; "filename:" +:+ name])
      with ((split "," mediaPrefix ++ [payload]) ++ ["filename:" +:+ name])
      by by rewrite <- app_assoc.
    rewrite !reverse_snoc. cbn [dataUriFilename dataUriPayload]. split; [|done].
    change ("filename:" +:+ name) with ("filename" +:+ String ":" name).
    rewrite split_app, (split_noChar ":" name Hcolon). done.
  - intros Hfile docs t.
    assert (String.eqb file "" = false) as Hfileb by by destruct (String.eqb_spec file "").
    unfold inlineLoop. simpl. unfold inlineStep. rewrite Hfileb.
    unfold bind, ret, processOne, inlinePayload, inlineFilename.
    by destruct (processBuffer _ _ _ _ _ _ _ _ _ t) as [[|] ?].
Qed.

Lemma inline_data_uri_segments_witness :
  inlineFilename (dataUri "data:application/pdf;base64" "QUJD" "a.pdf") = "a.pdf" ∧
  inlinePayload (dataUri "data:application/pdf;base64" "QUJD" "a.pdf") = "QUJD".
Proof.
  destruct (inline_data_uri_segments offline (nodeWith "" "perPage" None)
              (dataUri "data:application/pdf;base64" "QUJD" "a.pdf")) as (_ & Hformat & _).
  apply (Hformat "data:application/pdf;base64" "QUJD" "a.pdf"); reflexivity.
Defined.

(** The claim as the specification states it fails on the platform's own
    upload format: what follows the first comma still holds the file
    name, and the file name is not in the part before it.  On a URI with a
    single comma the payload is even the part before the comma. *)
Lemma payload_is_not_what_follows_the_first_comma :
  splitFirstComma "data:application/pdf;base64,QUJD,filename:a.pdf"
  = ("data:application/pdf;base64", "QUJD,filename:a.pdf")
  ∧ inlinePayload "data:application/pdf;base64,QUJD,filename:a.pdf" = "QUJD"
  ∧ inlineFilename "data:application/pdf;base64,QUJD,filename:a.pdf" = "a.pdf"
  ∧ inlinePayload "data:application/pdf;base64,QUJD" = "data:application/pdf;base64"
  ∧ inlineFilename "data:application/pdf;base64,QUJD" = ""
  ∧ ¬ payloadAfterFirstCommaAsStated.
Proof.
  repeat (split; [by vm_compute|]).
  intros Hclaim.
  specialize (Hclaim "data:application/pdf;base64,QUJD,filename:a.pdf").
  vm_compute in Hclaim. discriminate.
Qed.

(** ** C4: the text of an entry that is not a string *)

(** C4 (as amended).  For an entry that is neither a string nor [null],
    the extracted text is the value of the first of [pageContent], [text],
    [content] (in that order) whose value is truthy, and the empty string
    when none of them is. *)
Theorem entryText_first_truthy_field (item : JsVal) :
  (∀ s, item ≠ JStr s) →
  item ≠ JNull →
  ∃ v,
    entryText item = OK v ∧
    v = firstTruthyField item ∧
    let field name := getPropOpt (Some item) name in
    (truthy_opt (field "pageContent") = true → field "pageContent" = Some v) ∧
    (truthy_opt (field "pageContent") = false →
     truthy_opt (field "text") = true → field "text" = Some v) ∧
    (truthy_opt (field "pageContent") = false →
     truthy_opt (field "text") = false →
     truthy_opt (field "content") = true → field "content" = Some v) ∧
    (truthy_opt (field "pageContent") = false →
     truthy_opt (field "text") = false →
     truthy_opt (field "content") = false → v = JStr "").
Proof.
  intros Hstr Hnull. exists (firstTruthyField item).
  split; [|split; [done|]].
  - destruct item as [| | |s| |m]; try done; [by destruct (Hstr s)|].
    unfold entryText, firstTruthyField, orElse. simpl.
    destruct (m !! "pageContent") as [pc|] eqn:Hpc; simpl;
      [destruct (truthy pc); [done|] |];
      (destruct (m !! "text") as [tx|] eqn:Htx; simpl;
        [destruct (truthy tx); [done|] |]);
      (destruct (m !! "content") as [ct|] eqn:Hct; simpl;
        [by destruct (truthy ct) | done]).
  - unfold firstTruthyField. cbv zeta.
    destruct (getPropOpt (Some item) "pageContent") as [pc|],
             (getPropOpt (Some item) "text") as [tx|],
             (getPropOpt (Some item) "content") as [ct|]; cbn [truthy_opt default];
      repeat match goal with
             | |- context [truthy ?x] => destruct (truthy x) eqn:?
             end;
      repeat split; intros; congruence.
Qed.

Lemma entryText_first_truthy_field_witness :
  entryText (JObj {[ "pageContent" := JStr ""; "text" := JStr "hello"; "content" := JStr "x" ]})
  = OK (JStr "hello").
Proof.
  destruct (entryText_first_truthy_field
    (JObj {[ "pageContent" := JStr ""; "text" := JStr "hello"; "content" := JStr "x" ]}))
    as (v & Hv & _ & _ & Htext & _).
  - discriminate.
  - discriminate.
  - rewrite Hv. f_equal.
    assert (Some (JStr "hello") = Some v) as Heq
      by (apply Htext; vm_compute; reflexivity).
    by injection Heq.
Defined.

(** The claim as the specification states it fails on an entry whose
    [pageContent] is present but empty: the text comes from [text]. *)
Lemma entryText_skips_empty_pageContent :
  entryText (JObj {[ "pageContent" := JStr ""; "text" := JStr "hello" ]}) = OK (JStr "hello")
  ∧ firstPresentField (JObj {[ "pageContent" := JStr ""; "text" := JStr "hello" ]}) = JStr ""
  ∧ ¬ entryTextAsStated.
Proof.
  split; [by vm_compute|]. split; [by vm_compute|].
  intros Hclaim.
  specialize (Hclaim (JObj {[ "pageContent" := JStr ""; "text" := JStr "hello" ]})).
  vm_compute in Hclaim.
  assert (OK (JStr "hello") = OK (JStr "")) as [=]. { apply Hclaim. discriminate. }
Qed.

(** ** C5: a body that is not an array *)

Lemma mentions_suffix (before needle : string) : mentions (before +:+ needle) needle.
Proof. exists before, "". by rewrite string_app_nil_r. Qed.

(** C5.  When the endpoint answers with a success status and a JSON body
    that is not an array, the remote call throws an [Error] whose message
    is ["Failed to process file with Custom OCR API: Invalid response
    format from Custom OCR API: expected array of pages"], after the one
    POST; the step that processes the file throws the same error, so no
    document comes back. *)
Theorem non_array_body_rejected (env : Collaborators) (nodeData : NodeData.t)
    (buffer : Buffer) (filename : string) (docs : list Document) (t : Trace)
    (response : Response) (body : JsVal) :
  let req := ocrRequest env (NodeData.customOcrApiUrl nodeData) (credentialApiKey env)
               buffer filename in
  fetch env t req = OK response →
  ok response = true →
  json response = OK body →
  (∀ pages, body ≠ JArr pages) →
  ∃ msg,
    remoteOcr env nodeData buffer filename t = (Throw (Error msg), t ++ [OcrPost req]) ∧
    msg = "Failed to process file with Custom OCR API: Invalid response format from Custom OCR API: expected array of pages" ∧
    mentions msg "expected array of pages" ∧
    (ocrConfigured env nodeData →
     processOne env nodeData buffer filename docs t = (Throw (Error msg), t ++ [OcrPost req])).
Proof.
  intros req Hfetch Hok Hjson Harr.
  assert (remoteOcr env nodeData buffer filename t
          = (Throw (Error "Failed to process file with Custom OCR API: Invalid response format from Custom OCR API: expected array of pages"),
             t ++ [OcrPost req])) as Hremote.
  { unfold remoteOcr, postFilesToCustomApi, tryCatch, bind, call. fold req.
    rewrite Hfetch, Hok. simpl. unfold lift. rewrite Hjson.
    destruct body; try done. by destruct (Harr l). }
  eexists. split; [exact Hremote|]. split; [done|]. split.
  - apply (mentions_suffix
      "Failed to process file with Custom OCR API: Invalid response format from Custom OCR API: ").
  - intros (url & key & Hurl & Hne & Hkey & Hkne).
    unfold processOne, processBuffer, useCustomApi.
    rewrite Hurl, Hkey. simpl.
    destruct (String.eqb_spec url ""); [done|].
    destruct (String.eqb_spec key ""); [done|]. simpl.
    unfold bind. unfold remoteOcr in Hremote. rewrite <- Hurl, <- Hkey.
    by rewrite Hremote.
Qed.

Lemma non_array_body_rejected_witness :
  (init scripted (nodeWith "data:application/pdf;base64,QUJD,filename:object.pdf" "perPage" None) []).1
  = Throw (Error "Failed to process file with Custom OCR API: Invalid response format from Custom OCR API: expected array of pages").
Proof.
  destruct (non_array_body_rejected scripted
    (nodeWith "data:application/pdf;base64,QUJD,filename:object.pdf" "perPage" None)
    [] "object.pdf" [] []
    (mkResponse true 200 (OK "{}") (OK (JObj {[ "pages" := twoPages ]})))
    (JObj {[ "pages" := twoPages ]}))
    as (msg & _ & -> & _ & Hstep).
  - vm_compute. reflexivity.
  - reflexivity.
  - reflexivity.
  - discriminate.
  - assert (ocrConfigured scripted
      (nodeWith "data:application/pdf;base64,QUJD,filename:object.pdf" "perPage" None)) as Hcfg.
    { exists "http://localhost:8000/api/process", "secret".
      split; [reflexivity|]. split; [discriminate|]. split; [reflexivity | discriminate]. }
    specialize (Hstep Hcfg).
    change (init scripted
      (nodeWith "data:application/pdf;base64,QUJD,filename:object.pdf" "perPage" None) [])
      with (bind (processOne scripted
              (nodeWith "data:application/pdf;base64,QUJD,filename:object.pdf" "perPage" None)
              [] "object.pdf" [])
              (fun docs => bind (lift (applyMetadata scripted None docs))
                             (fun docs => ret (Documents docs))) []).
    unfold bind at 1. rewrite Hstep. reflexivity.
Defined.

(** ** C6: no upload, no output *)

Lemma orStr_empty (a b : option string) : nonEmpty a = false → orStr a b = b.
Proof. unfold orStr. by intros ->. Qed.

(** C6.  When none of the recognised upload fields carries a value (each
    is absent or the empty string), [init] throws
    [Error('File upload is required')] without calling any collaborator,
    and returns nothing. *)
Theorem init_requires_upload (env : Collaborators) (nodeData : NodeData.t) (t : Trace) :
  Forall (fun field => field = None ∨ field = Some "") (uploadFields nodeData) →
  init env nodeData t = (Throw (Error "File upload is required"), t).
Proof.
  intros Hfields.
  assert (Forall (fun field => nonEmpty field = false) (uploadFields nodeData)) as Hempty.
  { eapply Forall_impl; [exact Hfields|]. by intros field [-> | ->]. }
  unfold uploadFields in Hempty.
  repeat match goal with
         | H : Forall _ (_ :: _) |- _ => apply Forall_cons in H as [? H]
         end.
  unfold init, loadFiles, bind. unfold fileBase64.
  repeat match goal with
         | H : nonEmpty ?a = false |- context [orStr ?a ?b] => rewrite (orStr_empty a b H)
         end.
  by replace (nonEmpty (NodeData.fileObject nodeData)) with false.
Qed.

Lemma init_requires_upload_witness :
  init offline
    (NodeData.mk None (Some "") None None None None None None
                 (Some "http://localhost:8000/api/process") None (Some "perPage") None
                 false (Some "document")) []
  = (Throw (Error "File upload is required"), []).
Proof.
  apply init_requires_upload.
  repeat first [apply Forall_nil_2
               | apply Forall_cons_2; [(left; reflexivity) || (right; reflexivity)|]].
Defined.

(** ** C7: the metadata overlay *)

Lemma applyMetadata_object (env : Collaborators) (additionalMetadata : option JsVal)
    (ov : JsObject) (docs : list Document) :
  (additionalMetadata = Some (JObj ov) ∨
   ∃ s, additionalMetadata = Some (JStr s) ∧ s ≠ "" ∧ JSON_parse env s = OK (JObj ov)) →
  applyMetadata env additionalMetadata docs
  = OK (map (fun doc => mkDocument (pageContent doc) (ov ∪ metadata doc)) docs).
Proof.
  intros [-> | (s & -> & Hs & Hparse)]; unfold applyMetadata; simpl; [done|].
  destruct (String.eqb_spec s ""); [done|]. simpl. by rewrite Hparse.
Qed.

(** C7.  With an overlay object (given as an object, or as a string that
    [JSON.parse] turns into one), the overlay step returns as many
    documents as it received, in the same order and with the same
    [pageContent]; each document's metadata is its previous metadata with
    the overlay merged over it, so an overlay key takes the overlay's
    value and every other key keeps its own.  What [init] returns on the
    document output is exactly this list. *)
Theorem metadata_overlay_frame (env : Collaborators) (nodeData : NodeData.t)
    (ov : JsObject) (docs : list Document) (t t' : Trace) :
  loadFiles env nodeData t = (OK docs, t') →
  (NodeData.metadata nodeData = Some (JObj ov) ∨
   ∃ s, NodeData.metadata nodeData = Some (JStr s) ∧ s ≠ "" ∧
        JSON_parse env s = OK (JObj ov)) →
  ∃ docs',
    applyMetadata env (NodeData.metadata nodeData) docs = OK docs' ∧
    length docs' = length docs ∧
    pageContent <$> docs' = pageContent <$> docs ∧
    (∀ i d, docs !! i = Some d →
       ∃ d', docs' !! i = Some d' ∧
             pageContent d' = pageContent d ∧
             metadata d' = ov ∪ metadata d ∧
             (∀ k v, ov !! k = Some v → metadata d' !! k = Some v) ∧
             (∀ k, ov !! k = None → metadata d' !! k = metadata d !! k)) ∧
    (NodeData.output nodeData = Some "document" →
     init env nodeData t = (OK (Documents docs'), t')).
Proof.
  intros Hload Hov.
  exists (map (fun doc => mkDocument (pageContent doc) (ov ∪ metadata doc)) docs).
  pose proof (applyMetadata_object env _ ov docs Hov) as Happly.
  split; [done|]. split; [by rewrite length_map|].
  split; [by rewrite <- list_fmap_compose|].
  split.
  - intros i d Hi. eexists. split; [by rewrite list_lookup_fmap, Hi|].
    simpl. split; [done|]. split; [done|]. split.
    + intros k v Hk. by apply lookup_union_Some_l.
    + intros k Hk. by apply lookup_union_r.
  - intros Hout. unfold init, bind. rewrite Hload. unfold lift.
    rewrite Happly, Hout. by rewrite bool_decide_eq_true_2.
Qed.

Lemma metadata_overlay_frame_witness :
  init scripted
    (nodeWith "data:application/pdf;base64,QUJD,filename:good.pdf" "perFile"
       (Some (JStr tagOverlayText))) []
  = (OK (Documents
           [mkDocument
              ("page one" +:+ nl +:+ nl +:+ "<PAGE_BREAK>2</PAGE_BREAK>" +:+ nl +:+ nl +:+ "page two")
              {[ "tag" := JStr "x"; "source" := JStr "good.pdf"; "custom_ocr" := JBool true ]}]),
     [OcrPost (ocrRequest scripted (Some "http://localhost:8000/api/process") (Some "secret")
                 [] "good.pdf")]).
Proof.
  destruct (metadata_overlay_frame scripted
    (nodeWith "data:application/pdf;base64,QUJD,filename:good.pdf" "perFile"
       (Some (JStr tagOverlayText)))
    {[ "tag" := JStr "x" ]}
    [mkDocument
       ("page one" +:+ nl +:+ nl +:+ "<PAGE_BREAK>2</PAGE_BREAK>" +:+ nl +:+ nl +:+ "page two")
       {[ "source" := JStr "good.pdf"; "custom_ocr" := JBool true ]}]
    []
    [OcrPost (ocrRequest scripted (Some "http://localhost:8000/api/process") (Some "secret")
                [] "good.pdf")])
    as (docs' & Happly & _ & _ & _ & Hinit).
  - vm_compute. reflexivity.
  - right. eexists. split; [reflexivity|]. split; [discriminate|]. vm_compute. reflexivity.
  - rewrite Hinit by reflexivity. vm_compute in Happly. injection Happly as <-.
    vm_compute. reflexivity.
Defined.

(** ** C8: a failing file aborts the invocation *)

(** C8.  With the endpoint configured, let the upload resolve to the
    files [pre ++ file :: post], let the files of [pre] be processed
    without error, and let the remote call for [file] throw [e].  Then
    [init] throws that same [e] and returns no documents, neither those of
    [pre] nor any other, and the trace ends with the POST of [file]: no
    collaborator is called for the files of [post].  This holds for
    storage references and for inline data URIs. *)
Theorem remote_failure_aborts_invocation (env : Collaborators) (nodeData : NodeData.t)
    (upload file : string) (pre post : list string) (docs1 : list Document)
    (t t1 t2 : Trace) (e : Exn) :
  fileBase64 nodeData = Some upload →
  upload ≠ "" →
  ocrConfigured env nodeData →
  file ≠ "" →
  (startsWith upload "FILE-STORAGE::" = true →
   fileList env (replace "FILE-STORAGE::" "" upload) = OK (pre ++ file :: post) →
   storageLoop env nodeData pre [] t = (OK docs1, t1) →
   ∀ bf, getFileFromStorage env t1 file = OK bf →
     remoteOcr env nodeData bf file (t1 ++ [StorageRead file]) = (Throw e, t2) →
     init env nodeData t = (Throw e, t2) ∧
     t2 = t1 ++ [StorageRead file;
                 OcrPost (ocrRequest env (NodeData.customOcrApiUrl nodeData)
                            (credentialApiKey env) bf file)])
  ∧
  (startsWith upload "FILE-STORAGE::" = false →
   fileList env upload = OK (pre ++ file :: post) →
   inlineLoop env nodeData pre [] t = (OK docs1, t1) →
   remoteOcr env nodeData (Buffer_from_base64 env (inlinePayload file)) (inlineFilename file) t1
   = (Throw e, t2) →
   init env nodeData t = (Throw e, t2) ∧
   t2 = t1 ++ [OcrPost (ocrRequest env (NodeData.customOcrApiUrl nodeData)
                          (credentialApiKey env)
                          (Buffer_from_base64 env (inlinePayload file)) (inlineFilename file))]).
Proof.
  intros Hupload Hne Hcfg Hfile.
  assert (String.eqb file "" = false) as Hfileb by by destruct (String.eqb_spec file "").
  split.
  - intros Hstorage Hfiles Hpre bf Hbf Hremote. split.
    + apply init_loadFiles_throw. unfold loadFiles.
      rewrite Hupload, (nonEmpty_Some _ Hne). simpl. rewrite Hstorage.
      unfold bind at 1. unfold lift. rewrite Hfiles.
      eapply forEachFile_abort; [exact Hpre|].
      unfold storageStep. rewrite Hfileb. unfold bind, call. rewrite Hbf.
      by apply (processOne_remote_failure env nodeData).
    + pose proof (remoteOcr_trace env nodeData bf file (t1 ++ [StorageRead file])) as Htr.
      rewrite Hremote in Htr. simpl in Htr. by rewrite Htr, <- app_assoc.
  - intros Hinline Hfiles Hpre Hremote. split.
    + apply init_loadFiles_throw. unfold loadFiles.
      rewrite Hupload, (nonEmpty_Some _ Hne). simpl. rewrite Hinline.
      unfold bind at 1. unfold lift. rewrite Hfiles.
      eapply forEachFile_abort; [exact Hpre|].
      unfold inlineStep. rewrite Hfileb.
      by apply (processOne_remote_failure env nodeData).
    + pose proof (remoteOcr_trace env nodeData
                    (Buffer_from_base64 env (inlinePayload file)) (inlineFilename file) t1) as Htr.
      by rewrite Hremote in Htr.
Qed.

Lemma remote_failure_aborts_invocation_witness :
  init scripted (nodeWith storageUpload "perPage" None) []
  = (Throw (Error "Failed to process file with Custom OCR API: connect ECONNREFUSED 127.0.0.1:8000"),
     [StorageRead "good.pdf"; OcrPost (scriptedRequest "good.pdf");
      StorageRead "down.pdf"; OcrPost (scriptedRequest "down.pdf")]).
Proof.
  destruct (remote_failure_aborts_invocation scripted (nodeWith storageUpload "perPage" None)
    storageUpload "down.pdf" ["good.pdf"] ["good.pdf"]
    (match (storageLoop scripted (nodeWith storageUpload "perPage" None) ["good.pdf"] [] []).1 with
     | OK docs => docs
     | Throw _ => []
     end)
    []
    [StorageRead "good.pdf"; OcrPost (scriptedRequest "good.pdf")]
    [StorageRead "good.pdf"; OcrPost (scriptedRequest "good.pdf");
     StorageRead "down.pdf"; OcrPost (scriptedRequest "down.pdf")]
    (Error "Failed to process file with Custom OCR API: connect ECONNREFUSED 127.0.0.1:8000"))
    as [Hstorage _].
  - vm_compute. reflexivity.
  - discriminate.
  - exists "http://localhost:8000/api/process", "secret".
    split; [reflexivity|]. split; [discriminate|]. split; [reflexivity | discriminate].
  - discriminate.
  - destruct (Hstorage) with (bf := @nil Byte.byte) as [Hinit _].
    + vm_compute. reflexivity.
    + vm_compute. reflexivity.
    + vm_compute. reflexivity.
    + vm_compute. reflexivity.
    + vm_compute. reflexivity.
    + exact Hinit.
Defined.

(** ** C9: which strategy processes a file *)



(** ** C10: the entry's metadata wins over the base keys *)

Lemma pageDocument_entry_metadata (filename : string) (index : nat)
    (m em : JsObject) (d : Document) (k : string) (v : JsVal) :
  pageDocument filename index (JObj m) = OK d →
  m !! "metadata" = Some (JObj em) →
  em !! k = Some v →
  k ≠ "loc" →
  k ≠ "__proto__" →
  metadata d !! k = Some v.
Proof.
  unfold pageDocument. intros Hd Hm Hk Hloc Hproto.
  apply bind_OK_inv in Hd as (content & _ & Hd).
  unfold mergeEntryMetadata in Hd. simpl in Hd. rewrite Hm in Hd. simpl in Hd.
  destruct (isPdf filename).
  - apply bind_OK_inv in Hd as (lines & _ & Hd).
    apply newDocument_metadata in Hd as ->.
    rewrite lookup_insert_ne by done.
    unfold Object_assign. simpl. apply lookup_union_Some_l.
    by rewrite lookup_delete_ne.
  - apply newDocument_metadata in Hd as ->.
    unfold Object_assign. simpl. apply lookup_union_Some_l.
    by rewrite lookup_delete_ne.
Qed.

(** C10.  When an entry is an object whose [metadata] is an object, every
    key of that metadata, [source] and [custom_ocr] among them, takes the
    entry's value in the resulting document: in per-page mode for the
    document of that entry, in per-file mode for the metadata of the first
    entry. *)
Theorem entry_metadata_overrides_base (usage : option string) (filename : string)
    (items : list JsVal) (docs : list Document) (i : nat)
    (m em : JsObject) (k : string) (v : JsVal) :
  extractDocsFromCustomApi usage items filename = OK docs →
  items !! i = Some (JObj m) →
  m !! "metadata" = Some (JObj em) →
  em !! k = Some v →
  k = "source" ∨ k = "custom_ocr" →
  (usage ≠ Some "perFile" → ∃ d, docs !! i = Some d ∧ metadata d !! k = Some v) ∧
  (usage = Some "perFile" → i = 0%nat → ∃ d, docs = [d] ∧ metadata d !! k = Some v).
Proof.
  intros Hdocs Hi Hm Hk Hkey. split.
  - intros Husage. unfold extractDocsFromCustomApi in Hdocs.
    rewrite (isPerFile_false _ Husage) in Hdocs.
    destruct (perPageDocuments_lookup _ _ _ _ Hdocs) as (_ & Hnth).
    destruct (Hnth i _ Hi) as (d & Hd & Hpage).
    exists d. split; [done|].
    destruct Hkey as [-> | ->]; eapply pageDocument_entry_metadata; done.
  - intros -> ->. unfold extractDocsFromCustomApi in Hdocs. simpl in Hdocs.
    apply bind_OK_inv in Hdocs as (d & Hd & [= <-]).
    exists d. split; [done|].
    unfold perFileDocument in Hd.
    apply bind_OK_inv in Hd as (parts & _ & Hd).
    apply bind_OK_inv in Hd as (content & _ & Hd).
    apply newDocument_metadata in Hd as ->.
    destruct items as [|item items]; [done|]. injection Hi as ->.
    simpl. rewrite Hm. simpl. unfold Object_assign. simpl.
    apply lookup_union_Some_l. rewrite lookup_delete_ne; [done|].
    by destruct Hkey as [-> | ->].
Qed.

Lemma entry_metadata_overrides_base_witness :
  ∃ docs d,
    extractDocsFromCustomApi (Some "perPage")
      [JStr "cover";
       JObj {[ "text" := JStr "body";
               "metadata" := JObj {[ "source" := JStr "upstream.pdf";
                                     "custom_ocr" := JBool false ]} ]}]
      "doc.pdf" = OK docs
    ∧ docs !! 1%nat = Some d
    ∧ metadata d !! "source" = Some (JStr "upstream.pdf").
Proof.
  destruct (extractDocsFromCustomApi (Some "perPage")
      [JStr "cover";
       JObj {[ "text" := JStr "body";
               "metadata" := JObj {[ "source" := JStr "upstream.pdf";
                                     "custom_ocr" := JBool false ]} ]}]
      "doc.pdf") as [docs|e] eqn:Hdocs; [|vm_compute in Hdocs; discriminate].
  destruct (entry_metadata_overrides_base _ _ _ docs 1%nat
              {[ "text" := JStr "body";
                 "metadata" := JObj {[ "source" := JStr "upstream.pdf";
                                       "custom_ocr" := JBool false ]} ]}
              {[ "source" := JStr "upstream.pdf"; "custom_ocr" := JBool false ]}
              "source" (JStr "upstream.pdf") Hdocs) as [Hpage _].
  - reflexivity.
  - vm_compute. reflexivity.
  - vm_compute. reflexivity.
  - left. reflexivity.
  - destruct Hpage as (d & Hd & Hsource); [discriminate|].
    exists docs, d. split; [reflexivity|]. split; [exact Hd | exact Hsource].
Defined.

(** * Further properties of the code *)

(** ** The normaliser *)

(** X1.  A file name is treated as a PDF exactly when it ends in [.pdf]
    in some mix of upper and lower case; the rest of the name plays no
    role. *)
Theorem isPdf_iff_extension (filename : string) :
  isPdf filename = true ↔ endsInPdf filename.
Proof.
  split; [|apply isPdf_endsInPdf].
  unfold isPdf. induction filename as [|c r IH]; [done|].
  cbn [toLowerCase endsWith]. intros [Heq | Hrest]%orb_prop.
  - exists "", (String c r). split; [done|]. by apply String.eqb_eq in Heq.
  - destruct (IH Hrest) as (stem & ext & -> & Hext).
    by exists (String c stem), ext.
Qed.

Lemma pageDocument_other_inv (filename : string) (index : nat) (item : JsVal) (d : Document) :
  isPdf filename = false →
  pageDocument filename index item = OK d →
  ∃ content,
    entryText item = OK content ∧
    ToString content = OK (pageContent d) ∧
    metadata d = entryMetadata filename item.
Proof.
  intros Hpdf Hd. unfold pageDocument in Hd.
  apply bind_OK_inv in Hd as (content & Hcontent & Hd).
  destruct (entryText_value _ _ Hcontent) as (Hnull & _ & _).
  rewrite mergeEntryMetadata_spec in Hd by done. simpl in Hd. rewrite Hpdf in Hd.
  unfold newDocument in Hd. apply bind_OK_inv in Hd as (text & Htext & [= <-]).
  apply toStringMethod_OK in Htext. by exists content.
Qed.

Lemma perPageDocuments_total (filename : string) (items : list JsVal) :
  (∀ item, item ∈ items → ∀ index, ∃ d, pageDocument filename index item = OK d) →
  ∀ index, ∃ docs, perPageDocuments filename index items = OK docs.
Proof.
  induction items as [|item items IH]; intros Hall index; [by exists []|].
  destruct (Hall item (list_elem_of_here _ _) index) as (d & Hd).
  destruct (IH (fun i Hi => Hall i (list_elem_of_further _ _ _ Hi)) (S index)) as (ds & Hds).
  exists (d :: ds). simpl. by rewrite Hd, Hds.
Qed.

(** X2.  In per-page mode a file whose name does not end in [.pdf] gets
    no page location: each document carries the entry's text converted
    to a string and exactly [source] and [custom_ocr] under the entry's
    own metadata (merged as [Object.assign] does, without a property
    named [__proto__]), so a [loc] key can only come from the entry.  Here a text that is not a string is not
    split into lines, so the normaliser returns on every array of
    non-null entries whose texts are strings, numbers or booleans. *)
Theorem perPage_other_files_have_no_loc (usage : option string) (filename : string)
    (items : list JsVal) :
  usage ≠ Some "perFile" →
  isPdf filename = false →
  (∀ docs,
     extractDocsFromCustomApi usage items filename = OK docs →
     length docs = length items ∧
     ∀ i item, items !! i = Some item →
       ∃ d content,
         docs !! i = Some d ∧
         entryText item = OK content ∧
         ToString content = OK (pageContent d) ∧
         metadata d = entryMetadata filename item ∧
         (getPropOpt (Some item) "metadata" = None → metadata d !! "loc" = None))
  ∧ ((∀ item, item ∈ items →
        ∃ content, entryText item = OK content ∧
                   match content with JStr _ | JNum _ | JBool _ => True | _ => False end) →
     ∃ docs, extractDocsFromCustomApi usage items filename = OK docs).
Proof.
  intros Husage Hpdf. unfold extractDocsFromCustomApi.
  rewrite (isPerFile_false _ Husage). split.
  - intros docs Hdocs.
    destruct (perPageDocuments_lookup _ _ _ _ Hdocs) as (Hlen & Hnth).
    split; [done|]. intros i item Hi.
    destruct (Hnth i item Hi) as (d & Hd & Hpage).
    destruct (pageDocument_other_inv _ _ _ _ Hpdf Hpage) as (content & ? & ? & Hmd).
    exists d, content. repeat (split; [done|]).
    intros Hnone. rewrite Hmd. unfold entryMetadata. rewrite Hnone. done.
  - intros Hall. apply perPageDocuments_total. intros item Hitem index.
    destruct (Hall item Hitem) as (content & Hcontent & Hshape).
    destruct (entryText_value _ _ Hcontent) as (Hnull & _ & _).
    unfold pageDocument. rewrite Hcontent. simpl.
    rewrite mergeEntryMetadata_spec by done. simpl. rewrite Hpdf.
    destruct content; try done; by eexists.
Qed.

Lemma perPage_other_files_have_no_loc_witness :
  extractDocsFromCustomApi (Some "perPage")
    [JStr "one"; JObj {[ "text" := JNum "7" ]}] "notes.txt"
  = OK [mkDocument "one" {[ "source" := JStr "notes.txt"; "custom_ocr" := JBool true ]};
        mkDocument "7" {[ "source" := JStr "notes.txt"; "custom_ocr" := JBool true ]}].
Proof.
  destruct (perPage_other_files_have_no_loc (Some "perPage") "notes.txt"
    [JStr "one"; JObj {[ "text" := JNum "7" ]}]) as [_ Htotal].
  - discriminate.
  - vm_compute. reflexivity.
  - destruct Htotal as (docs & Hdocs).
    + intros item Hitem.
      apply elem_of_cons in Hitem as [-> | Hitem];
        [by exists (JStr "one")|].
      apply elem_of_cons in Hitem as [-> | Hitem];
        [by exists (JNum "7")|].
      by apply not_elem_of_nil in Hitem.
    + rewrite Hdocs. vm_compute in Hdocs. by injection Hdocs as <-.
Defined.

Lemma perPageDocuments_null (filename : string) (items : list JsVal) :
  JNull ∈ items → ∀ index, ∃ e, perPageDocuments filename index items = Throw e.
Proof.
  induction items as [|item items IH]; intros Hin index; [by apply elem_of_nil in Hin|].
  simpl. apply elem_of_cons in Hin as [<- | Hin]; [by eexists|].
  destruct (pageDocument filename index item) as [d|e]; [|by eexists].
  destruct (IH Hin (S index)) as (e & ->). by eexists.
Qed.

Lemma fileParts_null (items : list JsVal) :
  JNull ∈ items → ∀ index, ∃ e, fileParts index items = Throw e.
Proof.
  induction items as [|item items IH]; intros Hin index; [by apply elem_of_nil in Hin|].
  simpl. apply elem_of_cons in Hin as [<- | Hin]; [by eexists|].
  destruct (filePart index item) as [p|e]; [|by eexists].
  destruct (IH Hin (S index)) as (e & ->). by eexists.
Qed.

(** X3.  A response array that contains a [null] entry makes the
    normaliser throw, in per-page and in per-file mode alike and whatever
    the other entries are: no document is produced for the file.  When
    the [null] is the first entry, the error is the [TypeError] of reading
    [pageContent] from [null]. *)
Theorem null_entry_throws (usage : option string) (filename : string) (items : list JsVal) :
  (JNull ∈ items → ∃ e, extractDocsFromCustomApi usage items filename = Throw e) ∧
  extractDocsFromCustomApi usage (JNull :: items) filename
  = Throw (TypeError "Cannot read properties of null (reading 'pageContent')").
Proof.
  unfold extractDocsFromCustomApi, perFileDocument. split.
  - intros Hin. destruct (isPerFile usage).
    + destruct (fileParts_null items Hin 0) as (e & ->). by eexists.
    + apply perPageDocuments_null, Hin.
  - by destruct (isPerFile usage).
Qed.

Lemma null_entry_throws_witness :
  ∃ e, extractDocsFromCustomApi (Some "perFile") [JStr "a"; JNull; JStr "b"] "doc.pdf" = Throw e.
Proof.
  apply (proj1 (null_entry_throws (Some "perFile") "doc.pdf" [JStr "a"; JNull; JStr "b"])).
  apply list_elem_of_further, list_elem_of_here.
Defined.

Lemma perPageDocuments_app (filename : string) (a b : list JsVal) :
  ∀ index,
    perPageDocuments filename index (a ++ b)
    = (da ← perPageDocuments filename index a;
       db ← perPageDocuments filename (index + length a) b;
       OK (da ++ db)).
Proof.
  induction a as [|item a IH]; intros index.
  - simpl. rewrite Nat.add_0_r. by destruct (perPageDocuments filename index b).
  - simpl. destruct (pageDocument filename index item) as [d|e]; [|done]. simpl.
    rewrite IH. replace (S index + length a)%nat with (index + S (length a))%nat by lia.
    destruct (perPageDocuments filename (S index) a) as [da|e]; [|done]. simpl.
    by destruct (perPageDocuments filename (index + S (length a)) b).
Qed.

(** X4.  In per-page mode the documents of the first entries of a
    response do not depend on the entries that follow: when the normaliser
    returns on [a ++ b], it returns on [a] alone as well, with the first
    [length a] documents of the longer run, and the later entries only add
    documents behind them. *)
Theorem perPage_prefix_stable (usage : option string) (filename : string)
    (a b : list JsVal) (docs : list Document) :
  usage ≠ Some "perFile" →
  extractDocsFromCustomApi usage (a ++ b) filename = OK docs →
  ∃ da db,
    extractDocsFromCustomApi usage a filename = OK da ∧
    docs = da ++ db ∧
    length da = length a ∧
    length db = length b.
Proof.
  intros Husage. unfold extractDocsFromCustomApi. rewrite (isPerFile_false _ Husage).
  rewrite perPageDocuments_app. intros Hdocs.
  apply bind_OK_inv in Hdocs as (da & Hda & Hdocs).
  apply bind_OK_inv in Hdocs as (db & Hdb & [= <-]).
  exists da, db. split; [done|]. split; [done|].
  split; [exact (proj1 (perPageDocuments_lookup _ _ _ _ Hda))
         | exact (proj1 (perPageDocuments_lookup _ _ _ _ Hdb))].
Qed.

Lemma perPage_prefix_stable_witness :
  ∃ da db : list Document,
    extractDocsFromCustomApi (Some "perPage") [JStr "one"] "doc.pdf" = OK da ∧
    length da = 1%nat ∧ length db = 2%nat.
Proof.
  destruct (extractDocsFromCustomApi (Some "perPage")
              ([JStr "one"] ++ [JStr "two"; JStr ""]) "doc.pdf") as [docs|e] eqn:Hdocs;
    [|vm_compute in Hdocs; discriminate].
  destruct (perPage_prefix_stable (Some "perPage") "doc.pdf"
              [JStr "one"] [JStr "two"; JStr ""] docs) as (da & db & Hda & _ & Hla & Hlb).
  - discriminate.
  - exact Hdocs.
  - exists da, db. split; [exact Hda|]. split; [exact Hla | exact Hlb].
Defined.

(** X5.  An empty response array gives no document in per-page mode and
    exactly one document in per-file mode, with empty content and the
    metadata [source] and [custom_ocr]; so the remote call does not fail
    for a file in which the endpoint finds no page. *)
Theorem empty_response (env : Collaborators) (nodeData : NodeData.t) (buffer : Buffer)
    (filename : string) (t : Trace) (response : Response) :
  let req := ocrRequest env (NodeData.customOcrApiUrl nodeData) (credentialApiKey env)
               buffer filename in
  let docs := if isPerFile (NodeData.usage nodeData)
              then [mkDocument "" {[ "source" := JStr filename; "custom_ocr" := JBool true ]}]
              else [] in
  extractDocsFromCustomApi (NodeData.usage nodeData) [] filename = OK docs ∧
  (fetch env t req = OK response →
   ok response = true →
   json response = OK (JArr []) →
   remoteOcr env nodeData buffer filename t = (OK docs, t ++ [OcrPost req])).
Proof.
  intros req docs.
  assert (extractDocsFromCustomApi (NodeData.usage nodeData) [] filename = OK docs) as Hdocs.
  { unfold extractDocsFromCustomApi, docs. by destruct (isPerFile _). }
  split; [done|]. intros Hfetch Hok Hjson.
  unfold remoteOcr, postFilesToCustomApi, tryCatch, bind, call. fold req.
  rewrite Hfetch, Hok. simpl. unfold lift. by rewrite Hjson, Hdocs.
Qed.

Lemma countChar_split (sep : ascii) (s : string) :
  length (split sep s) = S (countChar sep s).
Proof.
  induction s as [|c s IH]; [done|]. simpl.
  destruct (Ascii.eqb c sep); simpl; [by rewrite IH|].
  destruct (split_cons sep s) as (seg & segs & Hsplit).
  rewrite Hsplit in *. simpl in *. done.
Qed.

Lemma countChar_app (c : ascii) (a b : string) :
  countChar c (a +:+ b) = (countChar c a + countChar c b)%nat.
Proof.
  induction a as [|x a IH]; [done|].
  change (countChar c (String x (a +:+ b))
          = (countChar c (String x a) + countChar c b)%nat).
  simpl. rewrite IH. lia.
Qed.

(** X6.  The computed line range of a page always ends at one more than
    the number of line feeds in its text: [to] is at least 1, a text
    without line feed gets [{from: 1, to: 1}], and a trailing line feed
    counts as one more (empty) line.  Joining two texts with a line feed
    adds their line counts. *)
Theorem computed_lines_count_line_feeds (text : string) :
  lineCount text = S (countChar newline text) ∧
  (text ≠ "" →
   locLines (JStr text) (JStr text) = OK (Some (lineRange (S (countChar newline text))))) ∧
  lineCount (text +:+ nl) = S (lineCount text) ∧
  (∀ other, lineCount (text +:+ nl +:+ other) = (lineCount text + lineCount other)%nat).
Proof.
  unfold lineCount. rewrite countChar_split. split; [done|]. split; [|split].
  - intros Htext. unfold locLines, lineRange, lineCount. simpl.
    destruct (String.eqb_spec text ""); [done|]. simpl. by rewrite countChar_split.
  - by rewrite !countChar_split, countChar_app, Nat.add_1_r.
  - intros other. rewrite !countChar_split, !countChar_app. simpl. lia.
Qed.

Lemma empty_response_witness :
  remoteOcr emptyAnswer (nodeWith "x" "perFile" None) [] "blank.pdf" []
  = (OK [mkDocument "" {[ "source" := JStr "blank.pdf"; "custom_ocr" := JBool true ]}],
     [OcrPost (ocrRequest emptyAnswer (Some "http://localhost:8000/api/process")
                 (Some "secret") [] "blank.pdf")]).
Proof.
  apply (proj2 (empty_response emptyAnswer (nodeWith "x" "perFile" None) [] "blank.pdf" []
                  (mkResponse true 200 (OK "[]") (OK (JArr []))))); reflexivity.
Defined.

(** ** The remote call *)

(** X7.  When the endpoint answers with a status that is not a success,
    the remote call throws an [Error] whose message carries the status
    code and the text of the body, behind the prefix of every remote
    failure; the body is never parsed as JSON, and the only call made is
    the one POST. *)
Theorem http_failure_reports_status_and_body (env : Collaborators) (nodeData : NodeData.t)
    (buffer : Buffer) (filename : string) (t : Trace) (response : Response) (body : string) :
  let req := ocrRequest env (NodeData.customOcrApiUrl nodeData) (credentialApiKey env)
               buffer filename in
  fetch env t req = OK response →
  ok response = false →
  text response = OK body →
  remoteOcr env nodeData buffer filename t
  = (Throw (Error (remotePrefix +:+ "Custom OCR API request failed with status "
                   +:+ pretty (status response) +:+ ": " +:+ body)),
     t ++ [OcrPost req]).
Proof.
  intros req Hfetch Hok Htext.
  unfold remoteOcr, postFilesToCustomApi, tryCatch, bind, call. fold req.
  rewrite Hfetch, Hok. simpl. unfold lift. by rewrite Htext.
Qed.

Lemma http_failure_reports_status_and_body_witness :
  remoteOcr scripted (nodeWith "x" "perPage" None) [] "scan.png" []
  = (Throw (Error "Failed to process file with Custom OCR API: Custom OCR API request failed with status 500: Internal Server Error"),
     [OcrPost (scriptedRequest "scan.png")]).
Proof.
  apply (http_failure_reports_status_and_body scripted (nodeWith "x" "perPage" None)
           [] "scan.png" []
           (mkResponse false 500 (OK "Internal Server Error")
              (Throw (SyntaxError "Unexpected token I in JSON at position 0")))
           "Internal Server Error"); reflexivity.
Defined.

(** X8.  Whatever goes wrong in the remote call (the request itself, a
    failure status, a body that is not JSON or not an array, an entry the
    normaliser rejects), the caller only ever sees an [Error] whose
    message starts with ["Failed to process file with Custom OCR API: "];
    no [TypeError] or [SyntaxError] leaves the method.  Failing or not,
    the method contacts the endpoint exactly once.  A failure of [fetch]
    itself is reported with its own message behind the prefix. *)
Theorem remote_failures_are_wrapped (env : Collaborators) (nodeData : NodeData.t)
    (buffer : Buffer) (filename : string) (t : Trace) :
  let req := ocrRequest env (NodeData.customOcrApiUrl nodeData) (credentialApiKey env)
               buffer filename in
  (remoteOcr env nodeData buffer filename t).2 = t ++ [OcrPost req] ∧
  (∀ e, (remoteOcr env nodeData buffer filename t).1 = Throw e →
        ∃ cause, e = Error (remotePrefix +:+ cause)) ∧
  (∀ e, fetch env t req = Throw e →
        (remoteOcr env nodeData buffer filename t).1 = Throw (Error (remotePrefix +:+ message e))).
Proof.
  intros req. split; [apply remoteOcr_trace|]. split.
  - intros e. unfold remoteOcr, postFilesToCustomApi, tryCatch, bind, call, lift, throw.
    fold req. destruct (fetch env t req) as [response|e0]; simpl.
    + destruct (negb (ok response)).
      * destruct (text response); simpl; intros [= <-]; by eexists.
      * destruct (json response) as [[]|]; simpl; try (intros [= <-]; by eexists).
        destruct (extractDocsFromCustomApi _ _ _); simpl; [done|].
        intros [= <-]; by eexists.
    + intros [= <-]. by eexists.
  - intros e Hfetch. unfold remoteOcr, postFilesToCustomApi, tryCatch, bind, call.
    fold req. by rewrite Hfetch.
Qed.

Lemma remote_failures_are_wrapped_witness :
  (remoteOcr scripted (nodeWith "x" "perPage" None) [] "down.pdf" []).1
  = Throw (Error "Failed to process file with Custom OCR API: connect ECONNREFUSED 127.0.0.1:8000").
Proof.
  apply (proj2 (proj2 (remote_failures_are_wrapped scripted (nodeWith "x" "perPage" None)
                         [] "down.pdf" []))
           (Error "connect ECONNREFUSED 127.0.0.1:8000")).
  reflexivity.
Defined.

(** ** The loops over the uploaded files *)

Lemma prepend_app (docs new : list Document) (run : result (list Document) * Trace) :
  prepend (docs ++ new) run = prepend docs (prepend new run).
Proof. destruct run as [[more|e] t]; simpl; [by rewrite app_assoc | done]. Qed.

Lemma processOne_prepend (env : Collaborators) (nodeData : NodeData.t)
    (bf : Buffer) (filename : string) (docs : list Document) (t : Trace) :
  processOne env nodeData bf filename docs t
  = prepend docs (processOne env nodeData bf filename [] t).
Proof.
  unfold processOne, processBuffer, extractDocs, bind, call, ret.
  destruct (useCustomApi _ _).
  - destruct (postFilesToCustomApi _ _ _ _ bf filename t) as [[customDocs|e] t']; [|done].
    destruct (NodeData.textSplitter nodeData) as [sp|]; [|done].
    by destruct (splitDocuments sp _ customDocs).
  - destruct (isPerFile _);
      (destruct (PDFLoader_load env t _ _ bf) as [loaded|e]; [|done]);
      (destruct (NodeData.textSplitter nodeData) as [sp|]; [|done]);
      by destruct (splitDocuments sp _ loaded).
Qed.

Lemma storageStep_prepend (env : Collaborators) (nodeData : NodeData.t)
    (file : string) (docs : list Document) (t : Trace) :
  storageStep env (NodeData.customOcrApiUrl nodeData) (credentialApiKey env)
    (NodeData.textSplitter nodeData) (NodeData.usage nodeData)
    (NodeData.legacyBuild nodeData) file docs t
  = prepend docs
      (storageStep env (NodeData.customOcrApiUrl nodeData) (credentialApiKey env)
         (NodeData.textSplitter nodeData) (NodeData.usage nodeData)
         (NodeData.legacyBuild nodeData) file [] t).
Proof.
  unfold storageStep. destruct (String.eqb file "").
  - unfold ret. simpl. by rewrite app_nil_r.
  - unfold bind, call. destruct (getFileFromStorage env t file) as [bf|e]; [|done].
    apply (processOne_prepend env nodeData).
Qed.

Lemma inlineStep_prepend (env : Collaborators) (nodeData : NodeData.t)
    (file : string) (docs : list Document) (t : Trace) :
  inlineStep env (NodeData.customOcrApiUrl nodeData) (credentialApiKey env)
    (NodeData.textSplitter nodeData) (NodeData.usage nodeData)
    (NodeData.legacyBuild nodeData) file docs t
  = prepend docs
      (inlineStep env (NodeData.customOcrApiUrl nodeData) (credentialApiKey env)
         (NodeData.textSplitter nodeData) (NodeData.usage nodeData)
         (NodeData.legacyBuild nodeData) file [] t).
Proof.
  unfold inlineStep. destruct (String.eqb file "").
  - unfold ret. simpl. by rewrite app_nil_r.
  - apply (processOne_prepend env nodeData).
Qed.

Lemma forEachFile_prepend (step : string → list Document → M (list Document)) :
  (∀ file docs t, step file docs t = prepend docs (step file [] t)) →
  ∀ files docs t, forEachFile step files docs t = prepend docs (forEachFile step files [] t).
Proof.
  intros Hstep files. induction files as [|file files IH]; intros docs t.
  - simpl. unfold ret. simpl. by rewrite app_nil_r.
  - simpl. unfold bind. rewrite (Hstep file docs t).
    destruct (step file [] t) as [[new|e] t1]; simpl; [|done].
    by rewrite (IH (docs ++ new)), (IH new), prepend_app.
Qed.

Lemma forEachFile_app (step : string → list Document → M (list Document))
    (a b : list string) (docs : list Document) (t : Trace) :
  forEachFile step (a ++ b) docs t
  = match forEachFile step a docs t with
    | (OK docs', t') => forEachFile step b docs' t'
    | (Throw e, t') => (Throw e, t')
    end.
Proof.
  revert docs t. induction a as [|file a IH]; intros docs t; [done|].
  simpl. unfold bind. destruct (step file docs t) as [[docs'|e] t']; [apply IH | done].
Qed.

(** X9.  Both loops of [init] only ever add to the collection: run with
    documents already collected, a loop returns those documents, in their
    order, followed by exactly what it would have collected starting from
    nothing; and looping over [a ++ b] is looping over [a] and then, from
    where that ended, over [b], or failing where [a] failed.  So the
    result is the documents of the files in upload order, and a file never
    changes or drops the documents of an earlier one. *)
Theorem documents_accumulate_in_upload_order (env : Collaborators) (nodeData : NodeData.t)
    (a b : list string) (docs : list Document) (t : Trace) :
  storageLoop env nodeData a docs t = prepend docs (storageLoop env nodeData a [] t) ∧
  inlineLoop env nodeData a docs t = prepend docs (inlineLoop env nodeData a [] t) ∧
  storageLoop env nodeData (a ++ b) docs t
  = match storageLoop env nodeData a docs t with
    | (OK docs', t') => storageLoop env nodeData b docs' t'
    | (Throw e, t') => (Throw e, t')
    end ∧
  inlineLoop env nodeData (a ++ b) docs t
  = match inlineLoop env nodeData a docs t with
    | (OK docs', t') => inlineLoop env nodeData b docs' t'
    | (Throw e, t') => (Throw e, t')
    end.
Proof.
  split; [|split; [|split]].
  - apply forEachFile_prepend. intros. apply storageStep_prepend.
  - apply forEachFile_prepend. intros. apply inlineStep_prepend.
  - apply forEachFile_app.
  - apply forEachFile_app.
Qed.

Lemma forEachFile_nonEmpty (step : string → list Document → M (list Document)) :
  (∀ docs t, step "" docs t = (OK docs, t)) →
  ∀ files docs t,
    forEachFile step files docs t = forEachFile step (nonEmptyFiles files) docs t.
Proof.
  intros Hskip files. unfold nonEmptyFiles.
  induction files as [|file files IH]; intros docs t; [done|].
  destruct (decide (file = "")) as [-> | Hfile].
  - rewrite filter_cons_False by (intros ?; done). simpl. unfold bind.
    rewrite Hskip. apply IH.
  - rewrite filter_cons_True by done. simpl. unfold bind.
    destruct (step file docs t) as [[docs'|e] t']; [apply IH | done].
Qed.

(** X10.  Empty strings in an upload list are skipped without any
    effect: each loop behaves on a list exactly as on the list with its
    empty entries removed, so no storage read, request or PDF load is made
    for them and they cause no error. *)
Theorem empty_uploads_are_skipped (env : Collaborators) (nodeData : NodeData.t)
    (files : list string) (docs : list Document) (t : Trace) :
  storageLoop env nodeData files docs t
  = storageLoop env nodeData (nonEmptyFiles files) docs t ∧
  inlineLoop env nodeData files docs t
  = inlineLoop env nodeData (nonEmptyFiles files) docs t ∧
  storageLoop env nodeData (replicate (length files) "") docs t = (OK docs, t).
Proof.
  split; [|split].
  - by apply forEachFile_nonEmpty.
  - by apply forEachFile_nonEmpty.
  - unfold storageLoop. rewrite forEachFile_nonEmpty by done.
    replace (nonEmptyFiles (replicate (length files) "")) with (@nil string); [done|].
    unfold nonEmptyFiles. induction (length files) as [|n IH]; [done|].
    simpl. by rewrite filter_cons_False by (intros ?; done).
Qed.

(** What one file shows in the trace: the first call of its strategy,
    possibly followed by the call of the text splitter. *)
Lemma processOne_shape (env : Collaborators) (nodeData : NodeData.t)
    (bf : Buffer) (filename : string) (docs : list Document) (t : Trace) :
  ∃ rest,
    (processOne env nodeData bf filename docs t).2
    = t ++ (if useCustomApi (NodeData.customOcrApiUrl nodeData) (credentialApiKey env)
            then OcrPost (ocrRequest env (NodeData.customOcrApiUrl nodeData)
                            (credentialApiKey env) bf filename)
            else PdfLoad (negb (isPerFile (NodeData.usage nodeData)))
                   (NodeData.legacyBuild nodeData) bf) :: rest ∧
    (rest = [] ∨ ∃ split, rest = [SplitDocuments split]).
Proof.
  unfold processOne, processBuffer.
  destruct (useCustomApi _ _).
  - pose proof (remoteOcr_trace env nodeData bf filename t) as Htr.
    unfold remoteOcr in Htr. unfold bind, call, ret.
    destruct (postFilesToCustomApi _ _ _ _ bf filename t) as [[customDocs|e] t'];
      simpl in Htr; subst t'; [|exists []; by split; [|left]].
    destruct (NodeData.textSplitter nodeData) as [sp|]; [|exists []; by split; [|left]].
    exists [SplitDocuments customDocs]. split; [|by right; eexists].
    destruct (splitDocuments sp _ customDocs); simpl; by rewrite <- app_assoc.
  - unfold extractDocs, bind, call, ret.
    destruct (isPerFile _); simpl;
      (destruct (PDFLoader_load env t _ _ bf) as [loaded|e];
        [|exists []; by split; [|left]]);
      (destruct (NodeData.textSplitter nodeData) as [sp|];
        [|exists []; by split; [|left]]);
      (exists [SplitDocuments loaded]; split; [|by right; eexists]);
      destruct (splitDocuments sp _ loaded); simpl; by rewrite <- app_assoc.
Qed.

(** A loop shows, for each file in turn, what its step shows. *)
Lemma forEachFile_observe {A} (obs : list Event → list A) (per : string → list A)
    (step : string → list Document → M (list Document)) :
  (∀ a b, obs (a ++ b) = obs a ++ obs b) →
  (∀ file docs t,
     ∃ evs, (step file docs t).2 = t ++ evs ∧
            obs evs `prefix_of` per file ∧
            (∀ docs', (step file docs t).1 = OK docs' → obs evs = per file)) →
  ∀ files docs t,
    ∃ evs, (forEachFile step files docs t).2 = t ++ evs ∧
           obs evs `prefix_of` (files ≫= per) ∧
           (∀ docs', (forEachFile step files docs t).1 = OK docs' → obs evs = files ≫= per).
Proof.
  intros Hobs Hstep files. induction files as [|file files IH]; intros docs t.
  - exists []. simpl. rewrite app_nil_r. split; [done|].
    assert (obs [] = []) as ->.
    { pose proof (Hobs [] []) as H. simpl in H.
      destruct (obs []) as [|x l]; [done|].
      apply (f_equal length) in H. rewrite length_app in H. simpl in H. lia. }
    done.
  - simpl. unfold bind.
    destruct (Hstep file docs t) as (evs & Htr & Hpre & Hok).
    destruct (step file docs t) as [[docs1|e] t1]; simpl in *; subst t1.
    + destruct (IH docs1 (t ++ evs)) as (evs' & Htr' & Hpre' & Hok').
      exists (evs ++ evs'). rewrite Htr', app_assoc. split; [done|].
      rewrite Hobs, (Hok docs1 eq_refl). split.
      * by apply prefix_app.
      * intros docs' Hdocs'. by rewrite (Hok' docs' Hdocs').
    + exists evs. split; [done|]. split; [|done].
      by apply prefix_app_r.
Qed.

Lemma bind_nonEmptyFiles {A} (f : string → A) (files : list string) :
  files ≫= (fun file => if String.eqb file "" then [] else [f file])
  = f <$> nonEmptyFiles files.
Proof.
  unfold nonEmptyFiles. induction files as [|file files IH]; [done|].
  rewrite bind_cons, IH. destruct (String.eqb_spec file "") as [-> | Hfile].
  - by rewrite filter_cons_False by (intros ?; done).
  - by rewrite filter_cons_True by done.
Qed.

(** X11.  A storage reference is read key by key in the listed order,
    each non-empty key exactly once: when the loop returns, the storage
    reads of its trace are the non-empty keys in their order; when it
    fails, they are a prefix of them.  The loop over inline uploads never
    reads the storage. *)
Theorem storage_keys_are_read_in_order (env : Collaborators) (nodeData : NodeData.t)
    (files : list string) (docs : list Document) (t : Trace) :
  (∃ evs,
     (storageLoop env nodeData files docs t).2 = t ++ evs ∧
     storageReads evs `prefix_of` nonEmptyFiles files ∧
     (∀ docs', (storageLoop env nodeData files docs t).1 = OK docs' →
               storageReads evs = nonEmptyFiles files)) ∧
  (∃ evs,
     (inlineLoop env nodeData files docs t).2 = t ++ evs ∧ storageReads evs = []).
Proof.
  split.
  - destruct (forEachFile_observe storageReads
                (fun file => if String.eqb file "" then [] else [file])
                (storageStep env (NodeData.customOcrApiUrl nodeData) (credentialApiKey env)
                   (NodeData.textSplitter nodeData) (NodeData.usage nodeData)
                   (NodeData.legacyBuild nodeData))) with (files := files) (docs := docs) (t := t)
      as (evs & Htr & Hpre & Hok).
    + intros a b. apply omap_app.
    + intros file docs0 t0. unfold storageStep.
      destruct (String.eqb file ""); [exists []; by rewrite app_nil_r|].
      unfold bind, call. destruct (getFileFromStorage env t0 file) as [bf|e].
      * destruct (processOne_shape env nodeData bf file docs0 (t0 ++ [StorageRead file]))
          as (rest & Htr & Hrest).
        unfold processOne in Htr.
        eexists (StorageRead file :: _ :: rest). rewrite Htr, <- app_assoc.
        split; [done|].
        assert (storageReads (StorageRead file
                  :: (if useCustomApi (NodeData.customOcrApiUrl nodeData) (credentialApiKey env)
                      then OcrPost (ocrRequest env (NodeData.customOcrApiUrl nodeData)
                                      (credentialApiKey env) bf file)
                      else PdfLoad (negb (isPerFile (NodeData.usage nodeData)))
                             (NodeData.legacyBuild nodeData) bf) :: rest) = [file]) as ->.
        { destruct (useCustomApi _ _), Hrest as [-> | (split & ->)]; done. }
        done.
      * exists [StorageRead file]. split; [done|]. split; [done|]. done.
    + rewrite (bind_nonEmptyFiles id), list_fmap_id in Hpre, Hok.
      exists evs. done.
  - destruct (forEachFile_observe storageReads (fun _ => [])
                (inlineStep env (NodeData.customOcrApiUrl nodeData) (credentialApiKey env)
                   (NodeData.textSplitter nodeData) (NodeData.usage nodeData)
                   (NodeData.legacyBuild nodeData))) with (files := files) (docs := docs) (t := t)
      as (evs & Htr & Hpre & _).
    + intros a b. apply omap_app.
    + intros file docs0 t0. unfold inlineStep.
      destruct (String.eqb file ""); [exists []; by rewrite app_nil_r|].
      destruct (processOne_shape env nodeData
                  (Buffer_from_base64 env (dataUriPayload (reverse (split "," file))))
                  (dataUriFilename (reverse (split "," file))) docs0 t0)
        as (rest & Htr & Hrest).
      unfold processOne in Htr. eexists. split; [exact Htr|].
      assert (∀ first, (isOcrPost first = true ∨ isPdfLoad first = true) →
                       storageReads (first :: rest) = []) as Hnone.
      { intros first [Hfirst | Hfirst];
          destruct first; try discriminate Hfirst;
          by destruct Hrest as [-> | (split & ->)]. }
      rewrite Hnone by (destruct (useCustomApi _ _); [by left | by right]). done.
    + exists evs. split; [done|].
      assert (files ≫= (fun _ : string => @nil string) = []) as Hnil.
      { clear. induction files as [|file files IH]; [done|]. by rewrite bind_cons, IH. }
      rewrite Hnil in Hpre. by apply prefix_nil_inv in Hpre.
Qed.

Lemma posts_app (a b : list Event) : posts (a ++ b) = posts a ++ posts b.
Proof. apply omap_app. Qed.

Lemma posts_tail (first : Event) (rest : list Event) :
  (rest = [] ∨ ∃ split, rest = [SplitDocuments split]) →
  posts (first :: rest) = posts [first].
Proof. intros [-> | (split & ->)]; [done|]. by destruct first. Qed.

(** X12.  With the endpoint configured, every file of an upload is sent
    to it exactly once, in upload order, and nothing is sent twice: when a
    loop returns, the requests in its trace are one per non-empty file;
    when it fails, they are a prefix of that list (no request follows the
    failing one).  An inline upload is sent with its decoded payload under
    the name read from its data URI, a stored file under its storage key;
    each request goes to the configured URL with the configured key as
    bearer token. *)
Theorem one_request_per_file (env : Collaborators) (nodeData : NodeData.t)
    (url key : string) (files : list string) (docs : list Document) (t : Trace) :
  NodeData.customOcrApiUrl nodeData = Some url →
  url ≠ "" →
  credentialApiKey env = Some key →
  key ≠ "" →
  (∃ evs,
     (inlineLoop env nodeData files docs t).2 = t ++ evs ∧
     posts evs `prefix_of` (inlineRequest env nodeData <$> nonEmptyFiles files) ∧
     (∀ docs', (inlineLoop env nodeData files docs t).1 = OK docs' →
               posts evs = inlineRequest env nodeData <$> nonEmptyFiles files)) ∧
  (∃ evs,
     (storageLoop env nodeData files docs t).2 = t ++ evs ∧
     (destination <$> posts evs)
       `prefix_of` ((fun file => (url, "Bearer " +:+ key, file)) <$> nonEmptyFiles files) ∧
     (∀ docs', (storageLoop env nodeData files docs t).1 = OK docs' →
               destination <$> posts evs
               = (fun file => (url, "Bearer " +:+ key, file)) <$> nonEmptyFiles files)).
Proof.
  intros Hurl Hu Hkey Hk.
  assert (useCustomApi (NodeData.customOcrApiUrl nodeData) (credentialApiKey env) = true)
    as Hcfg by (apply useCustomApi_configured; by exists url, key).
  split.
  - destruct (forEachFile_observe posts
                (fun file => if String.eqb file "" then [] else [inlineRequest env nodeData file])
                (inlineStep env (NodeData.customOcrApiUrl nodeData) (credentialApiKey env)
                   (NodeData.textSplitter nodeData) (NodeData.usage nodeData)
                   (NodeData.legacyBuild nodeData))) with (files := files) (docs := docs) (t := t)
      as (evs & Htr & Hpre & Hok).
    + apply posts_app.
    + intros file docs0 t0. unfold inlineStep.
      destruct (String.eqb file ""); [exists []; by rewrite app_nil_r|].
      destruct (processOne_shape env nodeData
                  (Buffer_from_base64 env (dataUriPayload (reverse (split "," file))))
                  (dataUriFilename (reverse (split "," file))) docs0 t0)
        as (rest & Htr & Hrest).
      unfold processOne in Htr. rewrite Hcfg in Htr.
      eexists. split; [exact Htr|]. by rewrite (posts_tail _ _ Hrest).
    + rewrite bind_nonEmptyFiles in Hpre, Hok. by exists evs.
  - destruct (forEachFile_observe (fun evs => destination <$> posts evs)
                (fun file => if String.eqb file "" then []
                             else [(fun file => (url, "Bearer " +:+ key, file)) file])
                (storageStep env (NodeData.customOcrApiUrl nodeData) (credentialApiKey env)
                   (NodeData.textSplitter nodeData) (NodeData.usage nodeData)
                   (NodeData.legacyBuild nodeData))) with (files := files) (docs := docs) (t := t)
      as (evs & Htr & Hpre & Hok).
    + intros a b. by rewrite posts_app, fmap_app.
    + intros file docs0 t0. unfold storageStep.
      destruct (String.eqb file ""); [exists []; by rewrite app_nil_r|].
      unfold bind, call. destruct (getFileFromStorage env t0 file) as [bf|e].
      * destruct (processOne_shape env nodeData bf file docs0 (t0 ++ [StorageRead file]))
          as (rest & Htr & Hrest).
        unfold processOne in Htr. rewrite Hcfg in Htr.
        eexists (StorageRead file :: _ :: rest). rewrite Htr, <- app_assoc.
        split; [done|].
        change (posts (StorageRead file :: ?l)) with (posts l).
        rewrite (posts_tail _ _ Hrest). simpl.
        unfold destination, ocrRequest. simpl. rewrite Hurl, Hkey. done.
      * exists [StorageRead file]. split; [done|]. split; [|done].
        apply prefix_nil.
    + rewrite bind_nonEmptyFiles in Hpre, Hok. by exists evs.
Qed.

Lemma one_request_per_file_witness :
  ∃ evs,
    (inlineLoop scripted (nodeWith "x" "perPage" None)
       ["data:application/pdf;base64,QUJD,filename:good.pdf"; "";
        "data:image/png;base64,QUJD,filename:good.pdf"] [] []).2 = evs ∧
    posts evs = [scriptedRequest "good.pdf"; scriptedRequest "good.pdf"].
Proof.
  destruct (one_request_per_file scripted (nodeWith "x" "perPage" None)
              "http://localhost:8000/api/process" "secret"
              ["data:application/pdf;base64,QUJD,filename:good.pdf"; "";
               "data:image/png;base64,QUJD,filename:good.pdf"] [] [])
    as [(evs & Htrace & _ & Hposts) _].
  - reflexivity.
  - discriminate.
  - reflexivity.
  - discriminate.
  - exists evs. split; [exact Htrace|].
    destruct (inlineLoop scripted (nodeWith "x" "perPage" None)
                ["data:application/pdf;base64,QUJD,filename:good.pdf"; "";
                 "data:image/png;base64,QUJD,filename:good.pdf"] [] []) as [[docs|e] t]
      eqn:Hrun; [|vm_compute in Hrun; discriminate].
    rewrite (Hposts docs eq_refl). vm_compute. reflexivity.
Defined.

Lemma startsWith_nonEmpty (s marker : string) :
  marker ≠ "" → startsWith s marker = true → nonEmpty (Some s) = true.
Proof.
  intros Hmarker Hs. apply nonEmpty_Some. intros ->.
  unfold startsWith in Hs. by destruct marker.
Qed.

(** X13.  When reading a stored file fails, [init] fails with the error
    of the storage as it is (it is not rewritten into a remote-OCR
    error), the read of that key is the last call made, and neither the
    documents of the earlier keys nor anything for the later keys comes
    back. *)
Theorem storage_failure_aborts_invocation (env : Collaborators) (nodeData : NodeData.t)
    (upload file : string) (pre post : list string) (docs1 : list Document)
    (t t1 : Trace) (e : Exn) :
  fileBase64 nodeData = Some upload →
  startsWith upload "FILE-STORAGE::" = true →
  fileList env (replace "FILE-STORAGE::" "" upload) = OK (pre ++ file :: post) →
  file ≠ "" →
  storageLoop env nodeData pre [] t = (OK docs1, t1) →
  getFileFromStorage env t1 file = Throw e →
  init env nodeData t = (Throw e, t1 ++ [StorageRead file]).
Proof.
  intros Hupload Hstorage Hfiles Hfile Hpre Hread.
  assert (String.eqb file "" = false) as Hfileb by by destruct (String.eqb_spec file "").
  apply init_loadFiles_throw. unfold loadFiles.
  rewrite Hupload, (startsWith_nonEmpty upload "FILE-STORAGE::" ltac:(discriminate) Hstorage).
  simpl. rewrite Hstorage. unfold bind at 1. unfold lift. rewrite Hfiles.
  eapply forEachFile_abort; [exact Hpre|].
  unfold storageStep. rewrite Hfileb. unfold bind, call. by rewrite Hread.
Qed.

Lemma storage_failure_aborts_invocation_witness :
  init offline (nodeWith "FILE-STORAGE::missing.pdf" "perPage" None) []
  = (Throw (Error "ENOENT"), [StorageRead "missing.pdf"]).
Proof.
  apply (storage_failure_aborts_invocation offline
           (nodeWith "FILE-STORAGE::missing.pdf" "perPage" None)
           "FILE-STORAGE::missing.pdf" "missing.pdf" [] [] [] [] [] (Error "ENOENT"));
    try reflexivity.
  discriminate.
Defined.

Lemma inlinePayload_dataUri (mediaPrefix payload name : string) :
  noChar "," payload = true →
  noChar "," name = true →
  inlinePayload (dataUri mediaPrefix payload name) = payload.
Proof.
  intros Hpayload Hname. unfold inlinePayload.
  rewrite split_dataUri by done.
  replace (split "," mediaPrefix ++ [payload; "filename:" +:+ name])
    with ((split "," mediaPrefix ++ [payload]) ++ ["filename:" +:+ name])
    by by rewrite <- app_assoc.
  by rewrite !reverse_snoc.
Qed.

Lemma dataUri_nonEmpty (mediaPrefix payload name : string) :
  String.eqb (dataUri mediaPrefix payload name) "" = false.
Proof. unfold dataUri. by destruct mediaPrefix. Qed.

(** X14.  Without an OCR configuration the name of a file is never
    used: the local path gives the same documents and makes the same calls
    whatever the file is called.  So two inline uploads from which the
    loop takes the same payload (the same segment before the last comma)
    are processed alike, whatever else they consist of; in the platform's
    format [<media type>,<base64>,filename:<name>] with no comma inside
    [<base64>] and [<name>], these are the uploads with the same
    [<base64>], whatever their media types and names (the local documents
    carry no [source] taken from the upload). *)
Theorem local_path_ignores_file_name (env : Collaborators) (nodeData : NodeData.t)
    (docs : list Document) (t : Trace) :
  ¬ ocrConfigured env nodeData →
  (∀ bf name1 name2,
     processOne env nodeData bf name1 docs t = processOne env nodeData bf name2 docs t) ∧
  (∀ file1 file2,
     file1 ≠ "" →
     file2 ≠ "" →
     inlinePayload file1 = inlinePayload file2 →
     inlineLoop env nodeData [file1] docs t = inlineLoop env nodeData [file2] docs t) ∧
  (∀ media1 media2 payload name1 name2,
     noChar "," payload = true →
     noChar "," name1 = true →
     noChar "," name2 = true →
     inlineLoop env nodeData [dataUri media1 payload name1] docs t
     = inlineLoop env nodeData [dataUri media2 payload name2] docs t).
Proof.
  intros Hcfg.
  assert (useCustomApi (NodeData.customOcrApiUrl nodeData) (credentialApiKey env) = false)
    as Hlocal.
  { destruct (useCustomApi _ _) eqn:Huse; [|done].
    by apply useCustomApi_configured in Huse. }
  assert (∀ bf name1 name2,
            processOne env nodeData bf name1 docs t = processOne env nodeData bf name2 docs t)
    as Hname.
  { intros bf name1 name2. unfold processOne, processBuffer. by rewrite Hlocal. }
  assert (∀ file1 file2,
            String.eqb file1 "" = false →
            String.eqb file2 "" = false →
            inlinePayload file1 = inlinePayload file2 →
            inlineLoop env nodeData [file1] docs t = inlineLoop env nodeData [file2] docs t)
    as Hpayload.
  { intros file1 file2 Hfile1 Hfile2 Heq.
    unfold inlineLoop. simpl. unfold bind, inlineStep. rewrite Hfile1, Hfile2.
    fold (inlinePayload file1). fold (inlinePayload file2). rewrite Heq.
    unfold processOne in Hname.
    by rewrite (Hname _ (dataUriFilename (reverse (split "," file1)))
                  (dataUriFilename (reverse (split "," file2)))). }
  split; [done|]. split.
  - intros file1 file2 Hfile1 Hfile2. apply Hpayload.
    + by destruct (String.eqb_spec file1 "").
    + by destruct (String.eqb_spec file2 "").
  - intros media1 media2 payload name1 name2 Hcomma Hname1 Hname2.
    apply Hpayload; [apply dataUri_nonEmpty..|].
    by rewrite !inlinePayload_dataUri.
Qed.

Lemma local_path_ignores_file_name_witness :
  inlineLoop scriptedNoKey (nodeWith "x" "perPage" None)
    [dataUri "data:application/pdf;base64" "QUJD" "a.pdf"] [] []
  = inlineLoop scriptedNoKey (nodeWith "x" "perPage" None)
      [dataUri "data:image/png;base64" "QUJD" "b.png"] [] [].
Proof.
  apply (proj2 (proj2 (local_path_ignores_file_name scriptedNoKey
                         (nodeWith "x" "perPage" None) [] []
                         ltac:(intros (url & key & _ & _ & Hkey & _); discriminate))));
    reflexivity.
Defined.

(** X15.  The text splitter runs on the documents of the remote call
    after that call has returned, and outside its error handling: the
    file contributes what the splitter returns, and a failure of the
    splitter reaches the caller as it is, without the prefix of a remote
    failure.  Without a splitter the documents of the remote call are
    added unchanged. *)
Theorem splitter_follows_remote_call (env : Collaborators) (nodeData : NodeData.t)
    (bf : Buffer) (filename : string) (docs customDocs : list Document) (t t1 : Trace) :
  ocrConfigured env nodeData →
  remoteOcr env nodeData bf filename t = (OK customDocs, t1) →
  (NodeData.textSplitter nodeData = None →
   processOne env nodeData bf filename docs t = (OK (docs ++ customDocs), t1)) ∧
  (∀ sp, NodeData.textSplitter nodeData = Some sp →
     processOne env nodeData bf filename docs t
     = prepend docs (splitDocuments sp t1 customDocs, t1 ++ [SplitDocuments customDocs])).
Proof.
  intros Hcfg%useCustomApi_configured Hremote.
  unfold processOne, processBuffer. rewrite Hcfg. unfold remoteOcr in Hremote.
  unfold bind. rewrite Hremote. split.
  - by intros ->.
  - intros sp ->. unfold call, ret. by destruct (splitDocuments sp t1 customDocs).
Qed.

Lemma splitter_follows_remote_call_witness :
  processOne scripted splittingNode [] "good.pdf" [] []
  = (Throw (Error "chunk size must be positive"),
     [OcrPost (scriptedRequest "good.pdf");
      SplitDocuments
        [mkDocument
           ("page one" +:+ nl +:+ nl +:+ "<PAGE_BREAK>2</PAGE_BREAK>" +:+ nl +:+ nl +:+ "page two")
           {[ "source" := JStr "good.pdf"; "custom_ocr" := JBool true ]}]]).
Proof.
  destruct (splitter_follows_remote_call scripted splittingNode [] "good.pdf" []
              [mkDocument
                 ("page one" +:+ nl +:+ nl +:+ "<PAGE_BREAK>2</PAGE_BREAK>" +:+ nl +:+ nl +:+ "page two")
                 {[ "source" := JStr "good.pdf"; "custom_ocr" := JBool true ]}]
              [] [OcrPost (scriptedRequest "good.pdf")]) as [_ Hsplit].
  - exists "http://localhost:8000/api/process", "secret".
    split; [reflexivity|]. split; [discriminate|]. split; [reflexivity | discriminate].
  - vm_compute. reflexivity.
  - exact (Hsplit failingSplitter eq_refl).
Defined.

(** ** The entry point *)

Lemma foldl_orStr (fields : list (option string)) :
  ∀ init,
    foldl orStr init fields
    = if nonEmpty init then init
      else match head (filter (fun field => nonEmpty field = true) fields) with
           | Some field => field
           | None => default init (last fields)
           end.
Proof.
  induction fields as [|field fields IH]; intros init; simpl.
  - by destruct (nonEmpty init).
  - rewrite IH, filter_cons. unfold orStr.
    destruct (nonEmpty init) eqn:Hinit; [by rewrite Hinit|].
    destruct (nonEmpty field) eqn:Hfield.
    + by rewrite decide_True.
    + rewrite decide_False by done.
      destruct (head (filter _ fields)); [done|].
      destruct fields as [|next fields]; [done|]. rewrite last_cons_cons.
      destruct (last (next :: fields)) eqn:Hlast; [done|].
      by apply last_None in Hlast.
Qed.

(** X16.  Of the eight upload fields, the first one in the order
    [processFile], [txtFile], [yamlFile], [docxFile], [jsonlinesFile],
    [csvFile], [jsonFile], [fileObject] that holds a non-empty string is
    the upload [init] works on; the fields after it are ignored.  [init]
    finds an upload exactly when some field holds a non-empty string. *)
Theorem first_filled_upload_field_wins (nodeData : NodeData.t) :
  (∀ field,
     head (filter (fun field => nonEmpty field = true) (uploadFields nodeData)) = Some field →
     fileBase64 nodeData = field) ∧
  (nonEmpty (fileBase64 nodeData) = true
   ↔ Exists (fun field => nonEmpty field = true) (uploadFields nodeData)).
Proof.
  assert (fileBase64 nodeData = foldl orStr None (uploadFields nodeData)) as Hfold
    by reflexivity.
  rewrite Hfold, foldl_orStr. simpl nonEmpty. cbv iota.
  split.
  - by intros field ->.
  - destruct (head (filter _ (uploadFields nodeData))) as [field|] eqn:Hhead.
    + apply head_Some_elem_of, list_elem_of_filter in Hhead as [Hfield Hin].
      split; [|done]. intros _. apply Exists_exists. by exists field.
    + apply head_None in Hhead. split.
      * intros Hlast. exfalso.
        assert (default None (last (uploadFields nodeData)) ∈ uploadFields nodeData) as Hin
          by (simpl; set_solver).
        assert (default None (last (uploadFields nodeData))
                  ∈ filter (fun field => nonEmpty field = true) (uploadFields nodeData)) as Hf
          by by apply list_elem_of_filter.
        rewrite Hhead in Hf. by apply elem_of_nil in Hf.
      * intros (field & Hin & Hfield)%Exists_exists. exfalso.
        assert (field ∈ filter (fun field => nonEmpty field = true) (uploadFields nodeData))
          as Hf by by apply list_elem_of_filter.
        rewrite Hhead in Hf. by apply elem_of_nil in Hf.
Qed.

Lemma first_filled_upload_field_wins_witness :
  fileBase64
    (NodeData.mk None (Some "") (Some "a.yaml") None (Some "b.jsonl") None None None
       None None None None false None)
  = Some "a.yaml".
Proof.
  apply (proj1 (first_filled_upload_field_wins _)). reflexivity.
Defined.

Lemma finalText_from (docs : list Document) (start : string) :
  fold_left (fun finaltext doc => finaltext +:+ pageContent doc +:+ nl) docs start
  = start +:+ finalText docs.
Proof.
  unfold finalText. revert start.
  induction docs as [|doc docs IH] using rev_ind; intros start.
  - simpl. by rewrite string_app_nil_r.
  - rewrite !fold_left_app. simpl. rewrite (IH start), (IH "").
    change ("" +:+ ?x) with x. by rewrite !string_app_assoc.
Qed.

Lemma finalText_cons (doc : Document) (docs : list Document) :
  finalText (doc :: docs) = pageContent doc +:+ nl +:+ finalText docs.
Proof.
  unfold finalText at 1. simpl. rewrite finalText_from.
  change ("" +:+ ?x) with x. by rewrite !string_app_assoc.
Qed.

Lemma finalText_contents (docs docs' : list Document) :
  pageContent <$> docs' = pageContent <$> docs → finalText docs' = finalText docs.
Proof.
  revert docs'. induction docs as [|doc docs IH]; intros [|doc' docs'] Heq; try done.
  rewrite !fmap_cons in Heq. injection Heq as Hdoc Hdocs.
  by rewrite !finalText_cons, Hdoc, (IH _ Hdocs).
Qed.

Lemma applyMetadata_contents (env : Collaborators) (additionalMetadata : option JsVal)
    (docs docs' : list Document) :
  applyMetadata env additionalMetadata docs = OK docs' →
  pageContent <$> docs' = pageContent <$> docs.
Proof.
  unfold applyMetadata. destruct (truthy_opt additionalMetadata); [|by intros [= <-]].
  intros (parsed & _ & [= <-])%bind_OK_inv.
  by rewrite <- list_fmap_compose.
Qed.

(** X17.  The text output is the contents of the documents in their
    order, each followed by a line feed, passed through the escaping of
    the platform; it is what [init] returns for every output selector
    other than [document], an absent one included.  Whatever overlay is
    given, the text output is the same as without overlay: the overlay
    step keeps the number, the order and the contents of the documents. *)
Theorem text_output (env : Collaborators) (nodeData : NodeData.t)
    (docs docs' : list Document) (t t' : Trace) :
  loadFiles env nodeData t = (OK docs, t') →
  applyMetadata env (NodeData.metadata nodeData) docs = OK docs' →
  pageContent <$> docs' = pageContent <$> docs ∧
  (NodeData.output nodeData ≠ Some "document" →
   init env nodeData t = (OK (Text (handleEscapeCharacters env (finalText docs))), t')) ∧
  finalText docs = String.concat "" ((fun doc => pageContent doc +:+ nl) <$> docs) ∧
  (∀ more, finalText (docs ++ more) = finalText docs +:+ finalText more).
Proof.
  intros Hload Happly.
  pose proof (applyMetadata_contents _ _ _ _ Happly) as Hcontents.
  split; [done|]. split; [|split].
  - intros Hout. unfold init, bind. rewrite Hload. unfold lift. rewrite Happly.
    rewrite bool_decide_eq_false_2 by done. unfold ret.
    by rewrite (finalText_contents _ _ Hcontents).
  - clear. induction docs as [|doc docs IH]; [done|].
    rewrite finalText_cons, fmap_cons, IH.
    destruct docs as [|doc2 docs]; [by rewrite string_app_nil_r|].
    rewrite fmap_cons.
    change (String.concat "" (?x :: ?y :: ?l)) with (x +:+ "" +:+ String.concat "" (y :: l)).
    change ("" +:+ ?x) with x. by rewrite !string_app_assoc.
  - intros more. unfold finalText at 1. rewrite fold_left_app.
    fold (finalText docs). apply finalText_from.
Qed.

Lemma text_output_witness :
  init scripted
    (NodeData.mk (Some "data:application/pdf;base64,QUJD,filename:good.pdf")
       None None None None None None None
       (Some "http://localhost:8000/api/process") None (Some "perPage")
       (Some (JObj {[ "tag" := JStr "x" ]})) false None) []
  = (OK (Text ("page one" +:+ nl +:+ "page two" +:+ nl)),
     [OcrPost (scriptedRequest "good.pdf")]).
Proof.
  destruct (loadFiles scripted
    (NodeData.mk (Some "data:application/pdf;base64,QUJD,filename:good.pdf")
       None None None None None None None
       (Some "http://localhost:8000/api/process") None (Some "perPage")
       (Some (JObj {[ "tag" := JStr "x" ]})) false None) []) as [[docs|e] t'] eqn:Hload;
    [|vm_compute in Hload; discriminate].
  destruct (text_output scripted _ docs
              ((fun doc => mkDocument (pageContent doc)
                             ({[ "tag" := JStr "x" ]} ∪ metadata doc)) <$> docs)
              [] t' Hload eq_refl) as (_ & Hinit & _).
  rewrite Hinit by discriminate.
  vm_compute in Hload. injection Hload as <- <-. vm_compute. reflexivity.
Defined.

(** X18.  An overlay given as text that [JSON.parse] rejects makes [init]
    fail with the parser's own error, not rewritten; this happens only
    after every file has been processed, so all storage reads and requests
    have been made by then, and no document is returned.  An overlay that
    is absent, [null], [false], [0] or the empty string is not applied at
    all and nothing is parsed. *)
Theorem malformed_overlay_fails_after_processing (env : Collaborators)
    (nodeData : NodeData.t) (docs : list Document) (t t' : Trace) :
  loadFiles env nodeData t = (OK docs, t') →
  (∀ s e,
     NodeData.metadata nodeData = Some (JStr s) →
     s ≠ "" →
     JSON_parse env s = Throw e →
     init env nodeData t = (Throw e, t')) ∧
  (truthy_opt (NodeData.metadata nodeData) = false →
   applyMetadata env (NodeData.metadata nodeData) docs = OK docs ∧
   (NodeData.output nodeData = Some "document" →
    init env nodeData t = (OK (Documents docs), t'))).
Proof.
  intros Hload. split.
  - intros s e Hmd Hs Hparse. unfold init, bind. rewrite Hload. unfold lift.
    unfold applyMetadata. rewrite Hmd. simpl.
    destruct (String.eqb_spec s ""); [done|]. simpl. by rewrite Hparse.
  - intros Hfalsy.
    assert (applyMetadata env (NodeData.metadata nodeData) docs = OK docs) as Happly
      by (unfold applyMetadata; by rewrite Hfalsy).
    split; [done|]. intros Hout. unfold init, bind. rewrite Hload. unfold lift.
    rewrite Happly, Hout. by rewrite bool_decide_eq_true_2.
Qed.

Lemma malformed_overlay_fails_after_processing_witness :
  init scripted
    (nodeWith "data:application/pdf;base64,QUJD,filename:good.pdf" "perPage"
       (Some (JStr "{tag: x}"))) []
  = (Throw (SyntaxError "Unexpected token"), [OcrPost (scriptedRequest "good.pdf")]).
Proof.
  destruct (loadFiles scripted
    (nodeWith "data:application/pdf;base64,QUJD,filename:good.pdf" "perPage"
       (Some (JStr "{tag: x}"))) []) as [[docs|e] t'] eqn:Hload;
    [|vm_compute in Hload; discriminate].
  destruct (malformed_overlay_fails_after_processing scripted _ docs [] t' Hload)
    as [Hfail _].
  rewrite (Hfail "{tag: x}" (SyntaxError "Unexpected token") eq_refl
             ltac:(discriminate) eq_refl).
  vm_compute in Hload. by injection Hload as <- <-.
Defined.

(** ** Resolving the upload *)

(** X19.  An inline upload that is not of the three-part form still
    goes through: a value with no comma is processed with an empty
    payload, and a value with a single comma, [<prefix>,<rest>], is
    processed with the text BEFORE the comma as its base64 payload, the
    part after the comma only giving the file name (what stands between
    its first and second colon, else the empty name). *)
Theorem short_data_uris (file before after : string) :
  (noChar "," file = true →
   inlinePayload file = "" ∧
   inlineFilename file = default "" (split ":" file !! 1%nat)) ∧
  (noChar "," before = true →
   noChar "," after = true →
   inlinePayload (before +:+ "," +:+ after) = before ∧
   inlineFilename (before +:+ "," +:+ after) = default "" (split ":" after !! 1%nat)).
Proof.
  unfold inlinePayload, inlineFilename. split.
  - intros Hfile. by rewrite (split_noChar _ _ Hfile).
  - intros Hbefore Hafter.
    change (before +:+ "," +:+ after) with (before +:+ String "," after).
    by rewrite split_app, (split_noChar _ _ Hbefore), (split_noChar _ _ Hafter).
Qed.

Lemma short_data_uris_witness :
  inlinePayload ("data:application/pdf;base64" +:+ "," +:+ "QUJD")
  = "data:application/pdf;base64" ∧
  inlineFilename ("data:application/pdf;base64" +:+ "," +:+ "QUJD") = "".
Proof.
  apply (proj2 (short_data_uris "" "data:application/pdf;base64" "QUJD")); reflexivity.
Defined.

Lemma string_prefix_app (marker s : string) :
  String.prefix marker (marker +:+ s) = true.
Proof.
  induction marker as [|c marker IH]; [by destruct s|].
  change (String c marker +:+ s) with (String c (marker +:+ s)). simpl.
  by destruct (Ascii.ascii_dec c c).
Qed.

Lemma dropChars_app (marker s : string) :
  dropChars (String.length marker) (marker +:+ s) = s.
Proof.
  induction marker as [|c marker IH]; [by destruct s|].
  change (String c marker +:+ s) with (String c (marker +:+ s)). simpl. apply IH.
Qed.

Lemma replace_marker (marker rest : string) :
  replace marker "" (marker +:+ rest) = rest.
Proof.
  destruct marker as [|c marker]; [by destruct rest|].
  change (String c marker +:+ rest) with (String c (marker +:+ rest)) at 1.
  cbn [replace]. change (String c (marker +:+ rest)) with (String c marker +:+ rest).
  by rewrite string_prefix_app, dropChars_app.
Qed.

(** X20.  A storage reference [FILE-STORAGE::<key>] whose key is not
    written as a list names exactly one file, the key with the marker
    removed: [init] reads that one key from the storage and processes it
    under the key as its file name.  An inline value that is not written
    as a list is likewise processed as exactly one file. *)
Theorem single_upload (env : Collaborators) (nodeData : NodeData.t) (upload : string)
    (t : Trace) :
  fileBase64 nodeData = Some upload →
  (∀ key,
     upload = "FILE-STORAGE::" +:+ key →
     bracketed key = false →
     loadFiles env nodeData t = storageLoop env nodeData [key] [] t) ∧
  (upload ≠ "" →
   startsWith upload "FILE-STORAGE::" = false →
   bracketed upload = false →
   loadFiles env nodeData t = inlineLoop env nodeData [upload] [] t).
Proof.
  intros Hupload. unfold loadFiles. rewrite Hupload. split.
  - intros key -> Hkey.
    assert (startsWith ("FILE-STORAGE::" +:+ key) "FILE-STORAGE::" = true) as Hstorage
      by apply string_prefix_app.
    rewrite (startsWith_nonEmpty _ "FILE-STORAGE::" ltac:(discriminate) Hstorage).
    cbn [default from_option id]. rewrite Hstorage, replace_marker.
    unfold bind at 1. unfold lift, fileList. fold (bracketed key). by rewrite Hkey.
  - intros Hne Hinline Hlist. rewrite (nonEmpty_Some _ Hne). cbn [default from_option id].
    rewrite Hinline. unfold bind at 1. unfold lift, fileList.
    fold (bracketed upload). by rewrite Hlist.
Qed.

Lemma single_upload_witness :
  loadFiles offline (nodeWith "FILE-STORAGE::report.pdf" "perPage" None) []
  = storageLoop offline (nodeWith "FILE-STORAGE::report.pdf" "perPage" None)
      ["report.pdf"] [] [].
Proof.
  apply (proj1 (single_upload offline (nodeWith "FILE-STORAGE::report.pdf" "perPage" None)
                  "FILE-STORAGE::report.pdf" [] eq_refl) "report.pdf"); reflexivity.
Defined.

(** X21.  An upload written as a list ([[...]], with or without the
    storage marker) that [JSON.parse] rejects makes [init] fail with the
    parser's error before any file is read, posted or loaded; a list that
    parses to no entry at all gives an empty result without any call. *)
Theorem upload_list_is_parsed_first (env : Collaborators) (nodeData : NodeData.t)
    (upload : string) (t : Trace) :
  fileBase64 nodeData = Some upload →
  (∀ list e,
     upload = "FILE-STORAGE::" +:+ list →
     bracketed list = true →
     JSON_parse_files env list = Throw e →
     init env nodeData t = (Throw e, t)) ∧
  (∀ e,
     startsWith upload "FILE-STORAGE::" = false →
     bracketed upload = true →
     JSON_parse_files env upload = Throw e →
     init env nodeData t = (Throw e, t)) ∧
  (startsWith upload "FILE-STORAGE::" = false →
   bracketed upload = true →
   JSON_parse_files env upload = OK [] →
   loadFiles env nodeData t = (OK [], t)).
Proof.
  intros Hupload.
  assert (∀ s, bracketed s = true → nonEmpty (Some s) = true) as Hlist.
  { intros s [Hs _]%andb_prop. by apply (startsWith_nonEmpty s "["). }
  split; [|split].
  - intros list e -> Hbr Hparse. apply init_loadFiles_throw. unfold loadFiles.
    rewrite Hupload.
    assert (startsWith ("FILE-STORAGE::" +:+ list) "FILE-STORAGE::" = true) as Hstorage
      by apply string_prefix_app.
    rewrite (startsWith_nonEmpty _ "FILE-STORAGE::" ltac:(discriminate) Hstorage).
    cbn [default from_option id]. rewrite Hstorage, replace_marker.
    unfold bind at 1. unfold lift, fileList. fold (bracketed list).
    by rewrite Hbr, Hparse.
  - intros e Hinline Hbr Hparse. apply init_loadFiles_throw. unfold loadFiles.
    rewrite Hupload, (Hlist _ Hbr). cbn [default from_option id]. rewrite Hinline.
    unfold bind at 1. unfold lift, fileList. fold (bracketed upload).
    by rewrite Hbr, Hparse.
  - intros Hinline Hbr Hparse. unfold loadFiles.
    rewrite Hupload, (Hlist _ Hbr). cbn [default from_option id]. rewrite Hinline.
    unfold bind at 1. unfold lift, fileList. fold (bracketed upload).
    by rewrite Hbr, Hparse.
Qed.

Lemma upload_list_is_parsed_first_witness :
  init offline (nodeWith "FILE-STORAGE::[a.pdf,b.pdf]" "perPage" None) []
  = (Throw (SyntaxError "Unexpected token"), []).
Proof.
  apply (proj1 (upload_list_is_parsed_first offline
                  (nodeWith "FILE-STORAGE::[a.pdf,b.pdf]" "perPage" None)
                  "FILE-STORAGE::[a.pdf,b.pdf]" [] eq_refl)
           "[a.pdf,b.pdf]" (SyntaxError "Unexpected token")); reflexivity.
Defined.

(** ** Whole runs *)

Lemma fileParts_same_texts (a b : list JsVal) :
  Forall2 (fun x y => entryText x = entryText y) a b →
  ∀ index, fileParts index a = fileParts index b.
Proof.
  induction 1 as [|x y a b Hxy _ IH]; intros index; [done|].
  simpl. unfold filePart. by rewrite Hxy, IH.
Qed.

(** X23.  In per-file mode only the texts of the entries after the
    first are used: their [metadata], their [lines] and every other field
    are dropped.  Two responses with the same first entry and entry-wise
    the same texts behind it give the same result, be it a document or an
    error. *)
Theorem perFile_uses_later_entries_for_text_only (filename : string) (first : JsVal)
    (rest rest' : list JsVal) :
  Forall2 (fun item item' => entryText item = entryText item') rest rest' →
  extractDocsFromCustomApi (Some "perFile") (first :: rest) filename
  = extractDocsFromCustomApi (Some "perFile") (first :: rest') filename.
Proof.
  intros Hrest. unfold extractDocsFromCustomApi, perFileDocument. simpl.
  by rewrite (fileParts_same_texts _ _ Hrest 1).
Qed.

Lemma perFile_uses_later_entries_for_text_only_witness :
  extractDocsFromCustomApi (Some "perFile")
    [JStr "cover";
     JObj {[ "text" := JStr "body"; "lines" := JNum "4";
             "metadata" := JObj {[ "source" := JStr "other" ]} ]}] "doc.pdf"
  = extractDocsFromCustomApi (Some "perFile") [JStr "cover"; JStr "body"] "doc.pdf".
Proof.
  apply perFile_uses_later_entries_for_text_only.
  repeat constructor.
Defined.

Lemma loadFiles_inline_single (env : Collaborators) (nodeData : NodeData.t)
    (upload : string) (t : Trace) :
  fileBase64 nodeData = Some upload →
  upload ≠ "" →
  startsWith upload "FILE-STORAGE::" = false →
  bracketed upload = false →
  loadFiles env nodeData t
  = processOne env nodeData (Buffer_from_base64 env (inlinePayload upload))
      (inlineFilename upload) [] t.
Proof.
  intros Hupload Hne Hinline Hlist. unfold loadFiles.
  rewrite Hupload, (nonEmpty_Some _ Hne). cbn [default from_option id].
  rewrite Hinline. unfold bind at 1. unfold lift, fileList.
  fold (bracketed upload). rewrite Hlist. simpl. unfold inlineStep, bind.
  assert (String.eqb upload "" = false) as -> by by destruct (String.eqb_spec upload "").
  unfold processOne, inlinePayload, inlineFilename, ret.
  by destruct (processBuffer _ _ _ _ _ _ _ _ _ t) as [[|] ?].
Qed.

(** X24.  The whole remote path for one inline upload in the platform's
    format [<media type>,<base64>,filename:<name>], where [<base64>] and
    [<name>] contain no comma and [<name>] contains no colon, with the
    endpoint configured and neither splitter nor overlay: [init] sends one
    request carrying the decoded payload under [<name>], and when the
    endpoint answers with an array that the normaliser accepts, it returns
    exactly the documents the normaliser builds from that array for
    [<name>], having made no other call. *)
Theorem remote_run_of_one_inline_upload (env : Collaborators) (nodeData : NodeData.t)
    (media payload name : string) (t : Trace) (response : Response)
    (items : list JsVal) (docs : list Document) :
  let upload := dataUri media payload name in
  let req := ocrRequest env (NodeData.customOcrApiUrl nodeData) (credentialApiKey env)
               (Buffer_from_base64 env payload) name in
  fileBase64 nodeData = Some upload →
  startsWith upload "FILE-STORAGE::" = false →
  bracketed upload = false →
  noChar "," payload = true →
  noChar "," name = true →
  noChar ":" name = true →
  ocrConfigured env nodeData →
  NodeData.textSplitter nodeData = None →
  NodeData.metadata nodeData = None →
  NodeData.output nodeData = Some "document" →
  fetch env t req = OK response →
  ok response = true →
  json response = OK (JArr items) →
  extractDocsFromCustomApi (NodeData.usage nodeData) items name = OK docs →
  init env nodeData t = (OK (Documents docs), t ++ [OcrPost req]).
Proof.
  intros upload req Hupload Hinline Hlist Hpayload Hname Hcolon Hcfg Hsplitter Hmd Hout
    Hfetch Hok Hjson Hdocs.
  assert (upload ≠ "") as Hne.
  { intros Heq. pose proof (dataUri_nonEmpty media payload name) as Hd.
    fold upload in Hd. by rewrite Heq in Hd. }
  assert (inlineFilename upload = name) as Hfilename.
  { unfold inlineFilename, upload. rewrite split_dataUri by done.
    replace (split "," media ++ [payload; "filename:" +:+ name])
      with ((split "," media ++ [payload]) ++ ["filename:" +:+ name])
      by by rewrite <- app_assoc.
    rewrite reverse_snoc. cbn [dataUriFilename].
    change ("filename:" +:+ name) with ("filename" +:+ String ":" name).
    by rewrite split_app, (split_noChar ":" name Hcolon). }
  assert (remoteOcr env nodeData (Buffer_from_base64 env payload) name t
          = (OK docs, t ++ [OcrPost req])) as Hremote.
  { unfold remoteOcr, postFilesToCustomApi, tryCatch, bind, call. fold req.
    rewrite Hfetch, Hok. simpl. unfold lift. by rewrite Hjson, Hdocs. }
  unfold init, bind.
  rewrite (loadFiles_inline_single env nodeData upload t Hupload Hne Hinline Hlist).
  rewrite Hfilename. unfold upload. rewrite (inlinePayload_dataUri _ _ _ Hpayload Hname).
  apply useCustomApi_configured in Hcfg.
  unfold processOne, processBuffer. rewrite Hcfg. unfold remoteOcr in Hremote.
  unfold bind. rewrite Hremote, Hsplitter. unfold ret, lift, applyMetadata.
  rewrite Hmd, Hout. simpl. by rewrite ?bool_decide_eq_true_2.
Qed.

Lemma remote_run_of_one_inline_upload_witness :
  init scripted
    (nodeWith (dataUri "data:application/pdf;base64" "QUJD" "good.pdf") "perFile" None) []
  = (OK (Documents
           [mkDocument
              ("page one" +:+ nl +:+ nl +:+ "<PAGE_BREAK>2</PAGE_BREAK>" +:+ nl +:+ nl +:+ "page two")
              {[ "source" := JStr "good.pdf"; "custom_ocr" := JBool true ]}]),
     [OcrPost (scriptedRequest "good.pdf")]).
Proof.
  apply (remote_run_of_one_inline_upload scripted
           (nodeWith (dataUri "data:application/pdf;base64" "QUJD" "good.pdf") "perFile" None)
           "data:application/pdf;base64" "QUJD" "good.pdf" []
           (mkResponse true 200 (OK "[...]") (OK twoPages))
           [JStr "page one"; JStr "page two"]); try reflexivity.
  exists "http://localhost:8000/api/process", "secret".
  split; [reflexivity|]. split; [discriminate|]. split; [reflexivity | discriminate].
Defined.

(** X25.  The whole local path for one inline upload, with no endpoint
    configured and without overlay: [init] hands the decoded payload to
    the PDF engine, asking for one unit per page unless the usage is
    [perFile] (then for the unsplit text), passes what the engine returns
    through the text splitter if there is one, and returns the outcome as
    it is: the documents of the splitter or of the engine, or the error of
    either. *)
Theorem local_run_of_one_inline_upload (env : Collaborators) (nodeData : NodeData.t)
    (upload : string) (t : Trace) :
  let bf := Buffer_from_base64 env (inlinePayload upload) in
  let load := PdfLoad (negb (isPerFile (NodeData.usage nodeData)))
                (NodeData.legacyBuild nodeData) bf in
  let loaded := PDFLoader_load env t (negb (isPerFile (NodeData.usage nodeData)))
                  (NodeData.legacyBuild nodeData) bf in
  fileBase64 nodeData = Some upload →
  upload ≠ "" →
  startsWith upload "FILE-STORAGE::" = false →
  bracketed upload = false →
  ¬ ocrConfigured env nodeData →
  NodeData.metadata nodeData = None →
  NodeData.output nodeData = Some "document" →
  (NodeData.textSplitter nodeData = None →
   init env nodeData t
   = (match loaded with OK docs => OK (Documents docs) | Throw e => Throw e end,
      t ++ [load])) ∧
  (∀ e, loaded = Throw e → init env nodeData t = (Throw e, t ++ [load])) ∧
  (∀ sp docs,
     NodeData.textSplitter nodeData = Some sp →
     loaded = OK docs →
     init env nodeData t
     = (match splitDocuments sp (t ++ [load]) docs with
        | OK chunks => OK (Documents chunks)
        | Throw e => Throw e
        end,
        t ++ [load; SplitDocuments docs])).
Proof.
  intros bf load loaded Hupload Hne Hinline Hlist Hcfg Hmd Hout.
  assert (useCustomApi (NodeData.customOcrApiUrl nodeData) (credentialApiKey env) = false)
    as Hlocal.
  { destruct (useCustomApi _ _) eqn:Huse; [|done].
    by apply useCustomApi_configured in Huse. }
  assert (init env nodeData t
          = match extractDocs env (NodeData.usage nodeData) bf (NodeData.legacyBuild nodeData)
                    (NodeData.textSplitter nodeData) [] t with
            | (OK docs, t') => (OK (Documents docs), t')
            | (Throw e, t') => (Throw e, t')
            end) as Hinit.
  { unfold init, bind.
    rewrite (loadFiles_inline_single env nodeData upload t Hupload Hne Hinline Hlist).
    unfold processOne, processBuffer. rewrite Hlocal. fold bf.
    destruct (extractDocs _ _ _ _ _ _ t) as [[docs|e] t']; [|done].
    unfold lift, applyMetadata, ret. rewrite Hmd, Hout. simpl.
    by rewrite ?bool_decide_eq_true_2. }
  rewrite Hinit. unfold extractDocs, bind, call, ret.
  split; [|split].
  - intros ->. subst loaded load. by destruct (isPerFile _); simpl; destruct (PDFLoader_load _ _ _ _ _).
  - intros e He. subst loaded load. destruct (isPerFile _); simpl in *; by rewrite He.
  - intros sp docs -> Hdocs. subst loaded load.
    destruct (isPerFile _); simpl in *; rewrite Hdocs;
      destruct (splitDocuments sp _ docs); by rewrite <- app_assoc.
Qed.

Lemma local_run_of_one_inline_upload_witness :
  init scriptedNoKey
    (nodeWith "data:application/pdf;base64,QUJD,filename:a.pdf" "perFile" None) []
  = (OK (Documents [mkDocument "local text" {[ "source" := JStr "blob" ]}]),
     [PdfLoad false false []]).
Proof.
  apply (proj1 (local_run_of_one_inline_upload scriptedNoKey
                  (nodeWith "data:application/pdf;base64,QUJD,filename:a.pdf" "perFile" None)
                  "data:application/pdf;base64,QUJD,filename:a.pdf" []
                  eq_refl ltac:(discriminate) eq_refl eq_refl
                  ltac:(intros (url & key & _ & _ & Hkey & _); discriminate)
                  eq_refl eq_refl)).
  reflexivity.
Defined.
